(** * STGCN training pipeline ([main.py]): a shallow embedding

    The development follows [main.py] function by function:
    - [Py]: the Python and NumPy primitives the script relies on (exceptions,
      [int()], [range], index normalisation, reductions over binary64);
    - [Graph]: the adjacency half of [data_preprocess];
    - [Signal]: the graph-signal half of [data_preprocess];
    - [Windows]: [build_dataset];
    - [Pipeline]: the split and the scaling done under [__main__];
    - [Training]: [train_model];
    - [Cheb]: the Chebyshev basis of [lib/utils.py].

    Floating-point values are Rocq's primitive binary64 floats, which is the
    arithmetic of Python's [float] and of NumPy's [float64]. *)

From Stdlib Require Import ZArith Floats Uint63 Lia.
From stdpp Require Import base list strings pretty.

Set Warnings "-inexact-float".

(** ** Python and NumPy primitives *)

Module Py.

(** The exceptions the modelled code can raise. *)
Inductive exn : Type :=
| IndexError
| KeyError
| ValueError
| OverflowError
| ZeroDivisionError
| AssertionError.

(** A computation either returns a value or raises. *)
Inductive result (A : Type) : Type :=
| Ok (a : A)
| Raise (e : exn).
Arguments Ok {A} a.
Arguments Raise {A} e.

#[export] Instance result_ret : MRet result := @Ok.
#[export] Instance result_bind : MBind result :=
  λ A B f m, match m with Ok a => f a | Raise e => Raise e end.
#[export] Instance result_fmap : FMap result :=
  λ A B f m, match m with Ok a => Ok (f a) | Raise e => Raise e end.

(** [for x in xs: acc = body(acc, x)], stopping at the first exception. *)
Fixpoint for_each {A S : Type} (body : S → A → result S) (xs : list A) (acc : S)
  : result S :=
  match xs with
  | [] => Ok acc
  | x :: xs' => acc' ← body acc x; for_each body xs' acc'
  end.

(** [int(x)] on a float: truncation toward zero; NaN and the infinities raise. *)
Definition int (x : float) : result Z :=
  match Prim2SF x with
  | S754_nan => Raise ValueError
  | S754_infinity _ => Raise OverflowError
  | S754_zero _ => Ok 0%Z
  | S754_finite s m e =>
      let a := Z.shiftl (Z.pos m) e in
      Ok (if s then (- a)%Z else a)
  end.

(** [float(n)] for an integer that fits 63 bits. *)
Definition float_of_Z (n : Z) : float := of_uint63 (Uint63.of_Z n).
Definition float_of_nat (n : nat) : float := float_of_Z (Z.of_nat n).

(** [range(n)] for an integer [n]: empty when [n <= 0]. *)
Definition range (n : Z) : list nat := seq 0 (Z.to_nat n).

(** NumPy's normalisation of an index along an axis of length [n]:
    [-n <= i < 0] counts from the end, anything outside [[-n, n)] raises. *)
Definition np_index (n : nat) (i : Z) : result nat :=
  if ((0 <=? i) && (i <? Z.of_nat n))%Z then Ok (Z.to_nat i)
  else if ((- Z.of_nat n <=? i) && (i <? 0))%Z then Ok (Z.to_nat (i + Z.of_nat n))
  else Raise IndexError.

(** A two-dimensional [float64] array, row by row. *)
Abbreviation matrix := (list (list float)) (only parsing).

Definition np_zeros (r c : nat) : matrix := replicate r (replicate c 0%float).

(** [A[i, j]] for indices already normalised. *)
Definition get2 (A : matrix) (i j : nat) : option float := r ← A !! i; r !! j.

(** [A[x, y] = v] on an [n] by [n] array. *)
Definition setitem2 (n : nat) (A : matrix) (x y : Z) (v : float) : result matrix :=
  i ← np_index n x;
  j ← np_index n y;
  Ok (alter (<[j := v]>) i A).

(** [A.flatten()]. *)
Definition flatten (A : matrix) : list float := concat A.

(** [tmp[tmp != 0]]: NaN is kept ([nan != 0] is true), both zeros are dropped. *)
Definition nonzero (tmp : list float) : list float :=
  List.filter (λ a, negb (a =? 0)%float) tmp.

(** [np.sum] of a one-dimensional array, added left to right.  NumPy adds
    arrays of eight or more elements pairwise, which can round differently;
    the results below that depend on a sum are stated for the value it has. *)
Definition np_sum (l : list float) : float := fold_left PrimFloat.add l 0%float.

(** [np.var]: the mean of the squared deviations from the mean ([ddof = 0]).
    On the empty array both divisions are [0.0 / 0], that is NaN. *)
Definition np_var (l : list float) : float :=
  let cnt := float_of_nat (length l) in
  let arrmean := (np_sum l / cnt)%float in
  let x := map (λ a, (a - arrmean)%float) l in
  let x := map (λ a, (a * a)%float) x in
  (np_sum x / cnt)%float.

End Py.
Import Py.

(** ** Configuration *)

(** The module-level constants of the "configuration part". *)
Record config : Type := Config {
  num_of_vertices : nat;
  orders_of_cheb : nat;
  epsilon : float;
  num_points_for_train : nat;
  num_points_for_predict : nat;
  learning_rate : float;
  decay_rate : float;
  decay_interval : Z;
  epochs : nat;
  batch_size : nat
}.

(** The values [main.py] ships with. *)
Definition default_config : config := {|
  num_of_vertices := 307;
  orders_of_cheb := 3;
  epsilon := 0.5;
  num_points_for_train := 12;
  num_points_for_predict := 1;
  learning_rate := 0.01;
  decay_rate := 0.7;
  decay_interval := 5;
  epochs := 10;
  batch_size := 32
|}.

(** ** [data_preprocess]: the adjacency matrix *)

Module Graph.

(** One row of [distance.values]: the two vertex columns and the distance. *)
Abbreviation row := (float * float * float)%type (only parsing).

Section WithExp.
(** [np.exp] on binary64; the C library's function, taken as given. *)
Variable np_exp : float → float.

(** The body of the loop over [distance.values]. *)
Definition put_distance (n : nat) (A : matrix) (r : row) : result matrix :=
  let '(x, y, dis) := r in
  x_index ← Py.int x;
  y_index ← Py.int y;
  A ← setitem2 n A x_index y_index dis;
  setitem2 n A y_index x_index dis.

(** [A] after the loop: the assembled distance matrix. *)
Definition distance_matrix (n : nat) (distance : list row) : result matrix :=
  for_each (put_distance n) distance (np_zeros n n).

(** [np.var(tmp[tmp != 0])] with [tmp = A.flatten()]. *)
Definition distance_var (A : matrix) : float := np_var (nonzero (flatten A)).

(** One cell of [np.exp(- (A ** 2) / var)]. *)
Definition kernel (var a : float) : float := np_exp (- (a * a) / var)%float.

(** One cell of [A[A < epsilon] = 0]. *)
Definition threshold (eps a : float) : float := if (a <? eps)%float then 0%float else a.

(** Lines 70 to 87 of [data_preprocess]. *)
Definition adjacency (cfg : config) (distance : list row) : result matrix :=
  A ← distance_matrix (num_of_vertices cfg) distance;
  let var := distance_var A in
  let A := map (map (kernel var)) A in
  Ok (map (map (threshold (epsilon cfg))) A).

End WithExp.

(** *** What the statements about the matrix are made of *)

(** An [n] by [n] array. *)
Definition square (n : nat) (A : matrix) : Prop :=
  length A = n ∧ Forall (λ r, length r = n) A.

(** Cells [(i, j)] and [(j, i)] hold the same value. *)
Definition symmetric (n : nat) (A : matrix) : Prop :=
  ∀ i j, i < n → j < n → ∃ a, get2 A i j = Some a ∧ get2 A j i = Some a.


(** [A[i][j] == A[j][i]] for every pair, with the equality of floats. *)
Definition symmetric_eqb (n : nat) (A : matrix) : Prop :=
  ∀ i j, i < n → j < n →
    ∃ a b, get2 A i j = Some a ∧ get2 A j i = Some b ∧ (a =? b)%float = true.

(** The two vertex columns of a row as integers. *)
Definition row_indices (r : row) : result (Z * Z) :=
  x_index ← Py.int r.1.1;
  y_index ← Py.int r.1.2;
  Ok (x_index, y_index).


(** The cells a row stores its distance in. *)
Definition cells (n : nat) (r : row) : list (nat * nat) :=
  match row_indices r with
  | Ok (x_index, y_index) =>
      match np_index n x_index, np_index n y_index with
      | Ok a, Ok b => [(a, b); (b, a)]
      | _, _ => []
      end
  | Raise _ => []
  end.

(** No row of the input stores a distance in cell [(i, j)]. *)
Definition unassigned (n : nat) (distance : list row) (i j : nat) : Prop :=
  Forall (λ r, (i, j) ∉ cells n r) distance.


End Graph.

(** ** NumPy arrays of rank two to four *)

Module Nd.

(** Python's slice [start:stop] on an axis of length [n]: a negative bound
    counts from the end, and both bounds are clipped to [[0, n]]. *)
Definition slice_bound (n : nat) (k : Z) : nat :=
  if (k <? 0)%Z then Z.to_nat (Z.max (k + Z.of_nat n) 0) else Nat.min (Z.to_nat k) n.

Definition slice_lo (n : nat) (start : option Z) : nat :=
  slice_bound n (default 0%Z start).

Definition slice_len (n : nat) (start stop : option Z) : nat :=
  slice_bound n (default (Z.of_nat n) stop) - slice_lo n start.

Definition py_slice {A : Type} (start stop : option Z) (l : list A) : list A :=
  take (slice_len (length l) start stop) (drop (slice_lo (length l) start) l).

Section Elem.
Context {A : Type}.

(** An array is its shape and its items, outermost axis first.  The shape is
    kept beside the items because an axis of length zero hides the lengths of
    the axes inside it. *)
Record ndarray2 : Type := Nd2 { shape2 : nat * nat; items2 : list (list A) }.
Record ndarray3 : Type := Nd3 { shape3 : nat * nat * nat; items3 : list (list (list A)) }.
Record ndarray4 : Type :=
  Nd4 { shape4 : nat * nat * nat * nat; items4 : list (list (list (list A))) }.

(** The items agree with the shape. *)
Definition rows_of (n : nat) (l : list (list A)) : Prop := Forall (λ r, length r = n) l.

Definition wf2 (M : ndarray2) : Prop :=
  let '(a, b) := shape2 M in
  length (items2 M) = a ∧ rows_of b (items2 M).

Definition wf3 (X : ndarray3) : Prop :=
  let '(a, b, c) := shape3 X in
  length (items3 X) = a ∧ Forall (λ m, length m = b ∧ rows_of c m) (items3 X).

Definition wf4 (X : ndarray4) : Prop :=
  let '(a, b, c, d) := shape4 X in
  length (items4 X) = a ∧
  Forall (λ s, length s = b ∧ Forall (λ m, length m = c ∧ rows_of d m) s) (items4 X).

(** Reading one cell. *)
Definition at2 (M : ndarray2) (i j : nat) : option A :=
  r ← items2 M !! i; r !! j.
Definition at3 (X : ndarray3) (i j k : nat) : option A :=
  m ← items3 X !! i; r ← m !! j; r !! k.
Definition at4 (X : ndarray4) (i j k l : nat) : option A :=
  s ← items4 X !! i; m ← s !! j; r ← m !! k; r !! l.

(** [X[:, :, start:stop]]. *)
Definition slice_time (X : ndarray3) (start stop : option Z) : ndarray3 :=
  let '(a, b, c) := shape3 X in
  Nd3 (a, b, slice_len c start stop) (map (map (py_slice start stop)) (items3 X)).

(** [X[:, f, start:stop]] for an integer [f]. *)
Definition take_channel (X : ndarray3) (f : Z) (start stop : option Z) : result ndarray2 :=
  let '(a, b, c) := shape3 X in
  f ← np_index b f;
  Ok (Nd2 (a, slice_len c start stop)
          (map (λ m, py_slice start stop (default [] (m !! f))) (items3 X))).

(** [X.transpose((1, 0, 2))]. *)
Definition transpose_102 (X : ndarray3) : ndarray3 :=
  let '(a, b, c) := shape3 X in
  Nd3 (b, a, c) (map (λ j, map (λ m, default [] (m !! j)) (items3 X)) (seq 0 b)).

(** [np.concatenate([np.expand_dims(x, 0) for x in xs], axis=0)]: the list
    must not be empty and its arrays must share one shape. *)
Definition stack2 (xs : list ndarray2) : result ndarray3 :=
  match xs with
  | [] => Raise ValueError
  | x :: _ =>
      if forallb (λ y, bool_decide (shape2 y = shape2 x)) xs
      then Ok (Nd3 (length xs, (shape2 x).1, (shape2 x).2) (map items2 xs))
      else Raise ValueError
  end.

Definition stack3 (xs : list ndarray3) : result ndarray4 :=
  match xs with
  | [] => Raise ValueError
  | x :: _ =>
      if forallb (λ y, bool_decide (shape3 y = shape3 x)) xs
      then Ok (Nd4 (length xs, (shape3 x).1.1, (shape3 x).1.2, (shape3 x).2) (map items3 xs))
      else Raise ValueError
  end.

(** [X.reshape(X.shape[0], -1)]: every sample laid out row-major.  With no
    sample the missing length cannot be inferred and NumPy raises. *)
Definition reshape_rows (X : ndarray4) : result ndarray2 :=
  let '(a, b, c, d) := shape4 X in
  if decide (a = 0) then Raise ValueError
  else Ok (Nd2 (a, b * c * d) (map (λ s, concat (map (λ m, concat m) s)) (items4 X))).

(** A list cut into [n] consecutive pieces of length [k]. *)
Definition chunks {B : Type} (n k : nat) (l : list B) : list (list B) :=
  map (λ i, take k (drop (i * k) l)) (seq 0 n).

(** [M.reshape(a, b, c, d)]: the sizes must agree. *)
Definition reshape4 (M : ndarray2) (a b c d : nat) : result ndarray4 :=
  let '(r, w) := shape2 M in
  if decide (r * w = a * b * c * d)
  then Ok (Nd4 (a, b, c, d)
             (map (λ s, map (chunks c d) (chunks b (c * d) s))
                  (chunks a (b * c * d) (concat (items2 M)))))
  else Raise ValueError.

End Elem.
Arguments ndarray2 A : clear implicits.
Arguments ndarray3 A : clear implicits.
Arguments ndarray4 A : clear implicits.

End Nd.
Import Nd.

(** ** [data_preprocess]: the graph signal matrix *)

Module Signal.

(** A parsed JSON object: its members in file order, the keys distinct. *)
Abbreviation dict V := (list (string * V)) (only parsing).

(** [d[k]]. *)
Fixpoint dict_get {V : Type} (d : dict V) (k : string) : result V :=
  match d with
  | [] => Raise KeyError
  | (k', v) :: d' => if decide (k' = k) then Ok v else dict_get d' k
  end.

(** [list(...)[0]]. *)
Definition first {B : Type} (l : list B) : result B :=
  match l with
  | [] => Raise IndexError
  | b :: _ => Ok b
  end.

(** The signal file: vertex id, then signal name, then the readings. *)
Abbreviation signal_file := (dict (dict (list float))) (only parsing).

(** [np.empty]: a fresh array whose cells hold whatever [junk] says. *)
Definition np_empty (junk : nat → nat → nat → float) (a b c : nat) : ndarray3 float :=
  Nd3 (a, b, c) (map (λ i, map (λ j, map (junk i j) (seq 0 c)) (seq 0 b)) (seq 0 a)).

(** The right-hand side of [X[i, c, :] = np.array(l)] broadcast to length [n]. *)
Definition broadcast (n : nat) (l : list float) : result (list float) :=
  if decide (length l = n) then Ok l
  else match l with
       | [a] => Ok (replicate n a)
       | _ => Raise ValueError
       end.

(** [X[i, c, :] = np.array(l)] for [i] within the first axis. *)
Definition set_series (X : ndarray3 float) (i : nat) (c : Z) (l : list float)
  : result (ndarray3 float) :=
  let '(_, b, n) := shape3 X in
  c ← np_index b c;
  r ← broadcast n l;
  Ok (Nd3 (shape3 X) (alter (<[c := r]>) i (items3 X))).

(** The body of the loop over the vertices. *)
Definition load_vertex (data : signal_file) (X : ndarray3 float) (i : nat)
  : result (ndarray3 float) :=
  d ← dict_get data (pretty i);
  flow ← dict_get d "flow";
  X ← set_series X i 0 flow;
  occupy ← dict_get d "occupy";
  X ← set_series X i 1 occupy;
  speed ← dict_get d "speed";
  set_series X i 2 speed.

(** Lines 93 to 103 of [data_preprocess]. *)
Definition graph_signal (cfg : config) (junk : nat → nat → nat → float)
    (data : signal_file) : result (ndarray3 float) :=
  v0 ← first data;
  s0 ← first v0.2;
  let X := np_empty junk (num_of_vertices cfg) (length v0.2) (length s0.2) in
  for_each (load_vertex data) (range (Z.of_nat (num_of_vertices cfg))) X.

End Signal.

(** ** [data_preprocess] *)

Definition data_preprocess (np_exp : float → float) (cfg : config)
    (junk : nat → nat → nat → float)
    (distance : list Graph.row) (data : Signal.signal_file)
  : result (matrix * ndarray3 float) :=
  A ← Graph.adjacency np_exp cfg distance;
  X ← Signal.graph_signal cfg junk data;
  Ok (A, X).

(** ** [build_dataset] *)

Module Windows.
Section Elem.
Context {A : Type}.

(** The loop body: one window starting at [i] and ending before [j]. *)
Definition add_sample (cfg : config) (X : ndarray3 A)
    (acc : list (ndarray3 A) * list (ndarray2 A)) (ij : nat * nat)
  : result (list (ndarray3 A) * list (ndarray2 A)) :=
  let '(features, target) := acc in
  let '(i, j) := ij in
  let h := Z.of_nat (i + num_points_for_train cfg) in
  let features :=
    features ++ [transpose_102 (slice_time X (Some (Z.of_nat i)) (Some h))] in
  t ← take_channel X 0 (Some h) (Some (Z.of_nat j));
  Ok (features, target ++ [t]).

(** The start and end of every window. *)
Definition indices (cfg : config) (X : ndarray3 A) : list (nat * nat) :=
  let span := num_points_for_train cfg + num_points_for_predict cfg in
  map (λ i, (i, i + span))
      (range (Z.of_nat (shape3 X).2 - Z.of_nat span + 1)).

Definition build_dataset (cfg : config) (X : ndarray3 A)
  : result (ndarray4 A * ndarray3 A) :=
  '(features, target) ← for_each (add_sample cfg X) (indices cfg X) ([], []);
  features ← stack3 features;
  target ← stack2 target;
  Ok (features, target).

(** *** What the statements about the windows are made of *)

(** The history and the target of the window that starts at [i]. *)
Definition window_history (cfg : config) (X : ndarray3 A) (i : nat) : ndarray3 A :=
  transpose_102
    (slice_time X (Some (Z.of_nat i)) (Some (Z.of_nat (i + num_points_for_train cfg)))).

Definition window_target (cfg : config) (X : ndarray3 A) (i : nat) : list (list A) :=
  map (λ m, py_slice (Some (Z.of_nat (i + num_points_for_train cfg)))
                     (Some (Z.of_nat (i + (num_points_for_train cfg +
                                            num_points_for_predict cfg))))
                     (default [] (m !! 0)))
      (items3 X).

(** The number of windows in [T] time steps. *)
Definition window_count (cfg : config) (T : nat) : nat :=
  T - (num_points_for_train cfg + num_points_for_predict cfg) + 1.

End Elem.
End Windows.

(** ** The script under [__main__]: split, windows, scaling *)

Module Pipeline.

(** What the script uses of [sklearn.preprocessing.StandardScaler]: an object
    that is fitted once and then applied.  [fit_transform] returns the fitted
    object beside the transformed rows; [transform] reads the fitted object. *)
Class Scaler (S : Type) : Type := {
  fit_transform : ndarray2 float → result (S * ndarray2 float);
  transform : S → ndarray2 float → result (ndarray2 float)
}.

(** [int(X.shape[2] * 0.6)] and [int(X.shape[2] * 0.8)]. *)
Definition split_line1 {A : Type} (X : ndarray3 A) : result Z :=
  Py.int (float_of_nat (shape3 X).2 * 0.6)%float.
Definition split_line2 {A : Type} (X : ndarray3 A) : result Z :=
  Py.int (float_of_nat (shape3 X).2 * 0.8)%float.

(** The three slices of lines 218 to 220. *)
Definition train_original_data {A : Type} (X : ndarray3 A) : result (ndarray3 A) :=
  split_line1 ← split_line1 X;
  Ok (slice_time X None (Some split_line1)).
Definition val_original_data {A : Type} (X : ndarray3 A) : result (ndarray3 A) :=
  split_line1 ← split_line1 X;
  split_line2 ← split_line2 X;
  Ok (slice_time X (Some split_line1) (Some split_line2)).
Definition test_original_data {A : Type} (X : ndarray3 A) : result (ndarray3 A) :=
  split_line2 ← split_line2 X;
  Ok (slice_time X (Some split_line2) None).

(** [assert c]. *)
Definition assert (c : bool) : result unit := if c then Ok () else Raise AssertionError.

(** What lines 214 to 245 leave behind. *)
Record prepared (S : Type) : Type := Prepared {
  transformer : S;
  training_data_norm : ndarray4 float;
  val_data_norm : ndarray4 float;
  testing_data_norm : ndarray4 float;
  training_target : ndarray3 float;
  val_target : ndarray3 float;
  testing_target : ndarray3 float
}.
Arguments Prepared {S}.
Arguments transformer {S}.
Arguments training_data_norm {S}.
Arguments val_data_norm {S}.
Arguments testing_data_norm {S}.
Arguments training_target {S}.
Arguments val_target {S}.
Arguments testing_target {S}.

Section WithScaler.
Context {S : Type} `{Scaler S}.

(** [data.reshape(data.shape[0], -1)], scaled by [f], reshaped back. *)
Definition scaled (cfg : config) (num_of_features : nat)
    (f : ndarray2 float → result (ndarray2 float)) (data : ndarray4 float)
  : result (ndarray4 float) :=
  flat ← reshape_rows data;
  out ← f flat;
  reshape4 out (shape4 data).1.1.1 num_of_features
           (num_of_vertices cfg) (num_points_for_train cfg).

Definition prepare (cfg : config) (X : ndarray3 float) : result (prepared S) :=
  train ← train_original_data X;
  val ← val_original_data X;
  test ← test_original_data X;
  '(training_data, training_target) ← Windows.build_dataset cfg train;
  '(val_data, val_target) ← Windows.build_dataset cfg val;
  '(testing_data, testing_target) ← Windows.build_dataset cfg test;
  _ ← assert (bool_decide (num_of_vertices cfg = (shape4 training_data).1.2));
  _ ← assert (bool_decide (num_points_for_train cfg = (shape4 training_data).2));
  let num_of_features := (shape4 training_data).1.1.2 in
  flat ← reshape_rows training_data;
  '(transformer, out) ← fit_transform flat;
  training_data_norm ←
    reshape4 out (shape4 training_data).1.1.1 num_of_features
             (num_of_vertices cfg) (num_points_for_train cfg);
  val_data_norm ← scaled cfg num_of_features (transform transformer) val_data;
  testing_data_norm ← scaled cfg num_of_features (transform transformer) testing_data;
  Ok (Prepared transformer training_data_norm val_data_norm testing_data_norm
               training_target val_target testing_target).

End WithScaler.

(** *** What the statements about the pipeline are made of *)

(** The two split lines come out as the integer parts of [3T/5] and [4T/5]. *)
Definition split_ok (T : Z) : bool :=
  match Py.int (float_of_Z T * 0.6)%float, Py.int (float_of_Z T * 0.8)%float with
  | Ok a, Ok b => ((a =? 3 * T / 5) && (b =? 4 * T / 5))%Z
  | _, _ => false
  end.

Fixpoint split_ok_from (T : Z) (fuel : nat) : bool :=
  match fuel with
  | 0 => true
  | S fuel' => split_ok T && split_ok_from (T + 1) fuel'
  end.

(** The longest time axis the split lines were computed for. *)
Definition max_steps : nat := Z.to_nat 65536.

(** A slice [part] of [X] holding the [len] time steps from [off] on. *)
Definition slice_of {A : Type} (X : ndarray3 A) (V F : nat) (part : ndarray3 A)
    (off len : nat) : Prop :=
  wf3 part ∧ shape3 part = (V, F, len) ∧
  ∀ v f t, v < V → f < F → t < len → at3 part v f t = at3 X v f (off + t).

(** What a run of [prepare] went through: the partitions, their windows, and
    the scaler fitted on the training windows and applied to the others. *)
Inductive prepare_trace {S : Type} `{Scaler S} (cfg : config) (X : ndarray3 float)
    (r : prepared S) : Prop :=
| PrepareTrace (train val test : ndarray3 float)
    (training_data val_data testing_data : ndarray4 float)
    (val_target' testing_target' : ndarray3 float) (flat out : ndarray2 float) :
    train_original_data X = Ok train →
    val_original_data X = Ok val →
    test_original_data X = Ok test →
    Windows.build_dataset cfg train = Ok (training_data, training_target r) →
    Windows.build_dataset cfg val = Ok (val_data, val_target') →
    Windows.build_dataset cfg test = Ok (testing_data, testing_target') →
    reshape_rows training_data = Ok flat →
    fit_transform flat = Ok (transformer r, out) →
    reshape4 out (shape4 training_data).1.1.1 (shape4 training_data).1.1.2
             (num_of_vertices cfg) (num_points_for_train cfg) =
      Ok (training_data_norm r) →
    scaled cfg (shape4 training_data).1.1.2 (transform (transformer r)) val_data =
      Ok (val_data_norm r) →
    scaled cfg (shape4 training_data).1.1.2 (transform (transformer r)) testing_data =
      Ok (testing_data_norm r) →
    val_target r = val_target' →
    testing_target r = testing_target' →
    num_of_vertices cfg = (shape4 training_data).1.2 →
    num_points_for_train cfg = (shape4 training_data).2 →
    prepare_trace cfg X r.

(** A scaler to run the pipeline with: per-column mean and standard deviation,
    a constant column left unscaled. *)
Record zscore : Type := ZScore { mean_ : list float; scale_ : list float }.

Definition column (M : ndarray2 float) (j : nat) : list float :=
  map (λ r, default 0%float (r !! j)) (items2 M).

Definition np_mean (l : list float) : float := (np_sum l / float_of_nat (length l))%float.

Definition zscore_fit (M : ndarray2 float) : zscore :=
  let cols := map (column M) (seq 0 (shape2 M).2) in
  ZScore (map np_mean cols)
         (map (λ c, let s := PrimFloat.sqrt (np_var c) in
                    if (s =? 0)%float then 1%float else s) cols).

Definition zscore_row (st : zscore) (r : list float) : list float :=
  zip_with (λ x ms, ((x - ms.1) / ms.2)%float) r (zip (mean_ st) (scale_ st)).

Definition zscore_transform (st : zscore) (M : ndarray2 float) : result (ndarray2 float) :=
  if decide ((shape2 M).2 = length (mean_ st))
  then Ok (Nd2 (shape2 M) (map (zscore_row st) (items2 M)))
  else Raise ValueError.

#[global] Instance zscore_scaler : Scaler zscore := {|
  fit_transform M :=
    if decide ((shape2 M).1 = 0 ∨ (shape2 M).2 = 0) then Raise ValueError
    else let st := zscore_fit M in out ← zscore_transform st M; Ok (st, out);
  transform := zscore_transform
|}.

End Pipeline.

(** ** [train_model] *)

Module Training.

(** The file an epoch's checkpoint goes to. *)
Definition checkpoint_name (epoch : nat) : string :=
  "stgcn_params/stgcn.params_" +:+ pretty epoch.

Section Engine.
(** The network's parameters and a batch of samples; the deep-learning
    engine is taken as given. *)
Variables (params batch : Type).
(** [net(x)], the loss, [l.backward()] and [trainer.step(batch_size)]: one
    optimizer step at the trainer's learning rate, with the batch's mean loss. *)
Variable train_step : float → params → batch → params * float.
(** [loss_function(net(x), y).mean()]. *)
Variable eval_loss : params → batch → float.

(** What the loop changes: the network, the trainer's learning rate, the
    files written by [save_parameters] (oldest first), the three loss lists,
    and the learning rate every optimizer step ran at, by epoch. *)
Record state : Type := State {
  net : params;
  lr : float;
  saved : list (string * params);
  train_loss_list : list float;
  val_loss_list : list float;
  test_loss_list : list float;
  steps : list (nat * float)
}.

(** [sum(l) / len(l)]. *)
Definition mean (l : list float) : result float :=
  match l with
  | [] => Raise ZeroDivisionError
  | _ => Ok (np_sum l / float_of_nat (length l))%float
  end.

(** The loop over [training_dataloader]. *)
Definition train_batches (rate : float) (p : params) (batches : list batch)
  : params * list float :=
  fold_left (λ '(p, losses) xy, let '(p', l) := train_step rate p xy in (p', losses ++ [l]))
            batches (p, []).

(** One pass of the loop over [range(epochs)].  [training_dataloader]
    shuffles, so it yields its batches in an order of the epoch's own. *)
Definition run_epoch (cfg : config) (training_dataloader : nat → list batch)
    (validation_dataloader testing_dataloader : list batch)
    (s : state) (epoch : nat) : result state :=
  let batches := training_dataloader epoch in
  let '(p, train_loss_list_tmp) := train_batches (lr s) (net s) batches in
  let steps := steps s ++ map (λ _, (epoch, lr s)) batches in
  train_loss ← mean train_loss_list_tmp;
  val_loss ← mean (map (eval_loss p) validation_dataloader);
  test_loss ← mean (map (eval_loss p) testing_dataloader);
  let saved :=
    if ((Z.of_nat epoch + 1) mod 5 =? 0)%Z
    then saved s ++ [(checkpoint_name epoch, p)]
    else saved s in
  if (decay_interval cfg =? 0)%Z then Raise ZeroDivisionError
  else
    let rate :=
      if ((Z.of_nat epoch + 1) mod decay_interval cfg =? 0)%Z
      then (lr s * decay_rate cfg)%float
      else lr s in
    Ok (State p rate saved
              (train_loss_list s ++ [train_loss])
              (val_loss_list s ++ [val_loss])
              (test_loss_list s ++ [test_loss])
              steps).

(** The state [train_model] starts from: the initialised network and a
    trainer at the configured learning rate. *)
Definition initial (cfg : config) (p : params) : state :=
  State p (learning_rate cfg) [] [] [] [] [].

Definition train_model (cfg : config) (p : params)
    (training_dataloader : nat → list batch)
    (validation_dataloader testing_dataloader : list batch) : result state :=
  for_each (run_epoch cfg training_dataloader validation_dataloader testing_dataloader)
           (range (Z.of_nat (epochs cfg))) (initial cfg p).

End Engine.
Arguments net {params}.
Arguments lr {params}.
Arguments saved {params}.
Arguments steps {params}.
Arguments train_loss_list {params}.
Arguments val_loss_list {params}.
Arguments test_loss_list {params}.

(** The learning rate after [k] decays. *)
Definition decayed (cfg : config) (k : nat) : float :=
  Nat.iter k (λ r, (r * decay_rate cfg)%float) (learning_rate cfg).

(** The epochs whose end is a checkpoint: the zero-based [epoch] with
    [(epoch + 1) % 5 == 0]. *)
Definition checkpoint_epochs (n : nat) : list nat :=
  List.filter (λ epoch, ((Z.of_nat epoch + 1) mod 5 =? 0)%Z) (seq 0 n).

(** The number of decays after [n] epochs with a positive interval. *)
Definition decays (cfg : config) (n : nat) : nat :=
  Z.to_nat (Z.of_nat n / decay_interval cfg).

End Training.

(** ** The Chebyshev basis *)

Module Cheb.
Section Scalars.
(** The scalars of the matrices: a type with the ring operations.  The
    statements below hold for any such type, binary64 among them. *)
Variable R : Type.
Variables (zero one : R) (add sub mul : R → R → R).

Abbreviation mat := (list (list R)) (only parsing).

Definition identity (n : nat) : mat :=
  map (λ i, map (λ j, if decide (i = j) then one else zero) (seq 0 n)) (seq 0 n).

Definition dot (u v : list R) : R := foldr add zero (zip_with mul u v).

Definition col (M : mat) (j : nat) : list R := map (λ r, default zero (r !! j)) M.

(** The product of two [n] by [n] matrices. *)
Definition matmul (n : nat) (M N : mat) : mat :=
  map (λ r, map (λ j, dot r (col N j)) (seq 0 n)) M.

Definition scale (c : R) (M : mat) : mat := map (map (mul c)) M.

Definition msub (M N : mat) : mat := zip_with (zip_with sub) M N.

(** [2 * L * T1 - T0]. *)
Definition cheb_next (n : nat) (L T0 T1 : mat) : mat :=
  msub (scale (add one one) (matmul n L T1)) T0.

Fixpoint cheb_from (n : nat) (L : mat) (k : nat) (T0 T1 : mat) : list mat :=
  match k with
  | 0 => []
  | S k' => let T2 := cheb_next n L T0 T1 in T2 :: cheb_from n L k' T1 T2
  end.

(** Modelled from the spec: [cheb_polynomial] of [lib/utils.py], which is not
    among the sources.  The spec's words: "an ordered sequence of
    [orders_of_cheb] matrices T0 = I, T1 = L~, Tk = 2 L~ T(k-1) - T(k-2), each
    of shape (num_of_vertices x num_of_vertices)", "basis length exactly K". *)
Definition cheb_polynomial (n : nat) (L_tilde : mat) (K : nat) : list mat :=
  take K (identity n :: L_tilde :: cheb_from n L_tilde (K - 2) (identity n) L_tilde).

(** Modelled from the spec: [scaled_Laplacian] of [lib/utils.py] is not among
    the sources either; it is taken as a function from the adjacency matrix
    to the scaled Laplacian that may fail.  Line 212 of [main.py] then maps
    [nd.array] over the basis. *)
Definition cheb_polys (scaled_Laplacian : mat → result mat) (nd_array : mat → mat)
    (cfg : config) (A : mat) : result (list mat) :=
  L_tilde ← scaled_Laplacian A;
  Ok (map nd_array (cheb_polynomial (num_of_vertices cfg) L_tilde (orders_of_cheb cfg))).

End Scalars.
End Cheb.

(** ** Inputs to run the definitions on *)

Module Examples.

(** A stand-in for the C library's [exp]: the special values are the ones
    IEEE 754 fixes ([exp(±0) = 1], [exp(-inf) = 0], [exp(nan) = nan]); elsewhere
    it sums the series after reducing the argument by multiples of [ln 2]. *)
Definition exp_series (x : float) : float :=
  match Prim2SF x with
  | S754_nan => nan
  | S754_infinity s => if s then 0%float else infinity
  | S754_zero _ => 1%float
  | S754_finite s _ _ =>
      if (710 <? x)%float then infinity
      else if (x <? -746)%float then 0%float
      else
        let ln2 := 0x1.62e42fefa39efp-1%float in
        let q := (abs x / ln2 + 0.5)%float in
        let k := match Py.int q with Ok k => k | Raise _ => 0%Z end in
        let kf := if s then (- float_of_Z k)%float else float_of_Z k in
        let r := (x - kf * ln2)%float in
        let series :=
          fold_right (λ i acc, (1 + r * acc / float_of_nat i)%float) 1%float (seq 1 20) in
        Z.ldexp series (if s then (- k)%Z else k)
  end.

(** Three vertices, two distances; the other settings as shipped. *)
Definition cfg3 : config := {|
  num_of_vertices := 3;
  orders_of_cheb := 3;
  epsilon := 0.5;
  num_points_for_train := 2;
  num_points_for_predict := 1;
  learning_rate := 0.01;
  decay_rate := 0.7;
  decay_interval := 5;
  epochs := 12;
  batch_size := 32
|}.

Definition distance3 : list Graph.row :=
  [(0, 1, 1); (1, 2, 3)]%float.



Definition readings (base : float) : Signal.dict (list float) :=
  [("flow", [base; base + 1; base + 2; base + 3; base + 4; base + 5]);
   ("occupy", [0.5; 0.5; 0.25; 0.25; 0.125; 0.125]);
   ("speed", [60; 61; 62; 63; 64; 65])]%float.

Definition data3 : Signal.signal_file :=
  [("0", readings 10); ("1", readings 20); ("2", readings 30)].

Definition junk0 : nat → nat → nat → float := λ _ _ _, 0%float.

(** What [data_preprocess] returns on these inputs. *)
Definition X3 : ndarray3 float :=
  Nd3 (3, 3, 6) (map (λ b : float, map snd (readings b)) [10; 20; 30]%float).
Definition A3 : list (list float) := [[1; 0; 1]; [0; 1; 0]; [1; 0; 1]]%float.

(** Twenty time steps; [bump] is added from step 12 on, past the training
    partition. *)
Definition signal20 (bump : float) : ndarray3 float :=
  Nd3 (3, 3, 20)
    (map (λ v, map (λ f, map (λ t, (float_of_nat (100 * v + 10 * f + t) +
                                    (if (12 <=? t)%nat then bump else 0))%float)
                             (seq 0 20)) (seq 0 3)) (seq 0 3)).

(** A toy engine: the parameters count the optimizer steps taken, a batch
    carries nothing, and the loss of a step is the rate it ran at. *)
Definition toy_step (rate : float) (p : nat) (_ : unit) : nat * float := (S p, rate).
Definition toy_loss (p : nat) (_ : unit) : float := 0%float.
Definition toy_train (_ : nat) : list unit := [(); ()].
Definition toy_eval : list unit := [()].

(** The path on three vertices, over the integers. *)
Definition path3 : list (list Z) := [[0; 1; 0]; [1; 0; 1]; [0; 1; 0]]%Z.

End Examples.

(** * Notions for the further properties *)

(** The distance of the last row that names the pair [(i, j)], 0 when no row does. *)
Definition last_distance (n : nat) (distance : list Graph.row) (i j : nat) : float :=
  fold_left (λ acc r, if bool_decide ((i, j) ∈ Graph.cells n r) then r.2 else acc)
            distance 0%float.


(** The three series the file holds for vertex [i]. *)
Definition vertex_series (data : Signal.signal_file) (i : nat)
    (flow occupy speed : list float) : Prop :=
  ∃ d, Signal.dict_get data (pretty i) = Ok d ∧
       Signal.dict_get d "flow" = Ok flow ∧
       Signal.dict_get d "occupy" = Ok occupy ∧
       Signal.dict_get d "speed" = Ok speed.

(** The rows of vertex [i] once its three series are stored. *)
Definition stored (fl oc sp : list float) (m : list (list float)) : list (list float) :=
  <[2 := sp]> (<[1 := oc]> (<[0 := fl]> m)).


(** The parameters after the training steps of the first [n] epochs, each
    epoch at the rate the decays before it leave. *)
Definition trained {params batch : Type}
    (train_step : float → params → batch → params * float) (cfg : config)
    (training_dataloader : nat → list batch) (p : params) (n : nat) : params :=
  fold_left (λ p epoch,
               (Training.train_batches params batch train_step
                  (Training.decayed cfg (Training.decays cfg epoch)) p
                  (training_dataloader epoch)).1)
            (seq 0 n) p.

(** ** Further inputs *)

(** A pair listed twice, the second time with a negative index. *)
Definition distance_rewritten : list Graph.row := [(0, 1, 1); (-2, 0, 5)]%float.
Definition D_rewritten : list (list float) := [[0; 5; 0]; [5; 0; 0]; [0; 0; 0]]%float.


(** Two samples of one channel, two vertices and two time steps. *)
Definition samples2 : ndarray4 nat :=
  Nd4 (2, 1, 2, 2) [[[[1; 2]; [3; 4]]]; [[[5; 6]; [7; 8]]]].


(** The settings of [cfg3] with a decay interval of 0. *)
Definition cfg_no_decay : config := {|
  num_of_vertices := 3;
  orders_of_cheb := 3;
  epsilon := 0.5;
  num_points_for_train := 2;
  num_points_for_predict := 1;
  learning_rate := 0.01;
  decay_rate := 0.7;
  decay_interval := 0;
  epochs := 12;
  batch_size := 32
|}.

(** * Proofs *)

Import Graph Examples.

(** * Facts about binary64 *)

Lemma SFcompare_nan_l (y : spec_float) : SFcompare S754_nan y = None.
Proof. reflexivity. Qed.

Lemma SFcompare_nan_r (x : spec_float) : SFcompare x S754_nan = None.
Proof. by destruct x. Qed.







(** Telling two float literals apart. *)
Ltac float_neq :=
  let H := fresh in
  intros H; apply (f_equal Prim2SF) in H; vm_compute in H; discriminate H.

(** * The adjacency matrix *)

Lemma bind_Ok {A B : Type} (m : result A) (f : A → result B) (b : B) :
  m ≫= f = Ok b ↔ ∃ a, m = Ok a ∧ f a = Ok b.
Proof.
  destruct m as [a|e]; simpl.
  - split; [eauto | by intros (? & [= <-] & ?)].
  - split; [done | by intros (? & [=] & ?)].
Qed.

Lemma np_index_Ok (n : nat) (z : Z) (i : nat) :
  np_index n z = Ok i → i < n.
Proof.
  unfold np_index. repeat case_match; intros [= <-]; lia.
Qed.

Lemma np_index_range (n : nat) (z : Z) :
  (- Z.of_nat n <= z < Z.of_nat n)%Z ↔ ∃ i, np_index n z = Ok i.
Proof.
  unfold np_index. split.
  - intros Hz. repeat case_match; eauto; lia.
  - intros [i Hi]. repeat case_match; try discriminate; lia.
Qed.

Lemma np_index_Raise (n : nat) (z : Z) (e : exn) :
  np_index n z = Raise e → e = IndexError ∧ ¬ (- Z.of_nat n <= z < Z.of_nat n)%Z.
Proof.
  unfold np_index. repeat case_match; intros [= <-]. split; [done|lia].
Qed.

Lemma square_zeros (n : nat) : square n (np_zeros n n).
Proof.
  split; [apply length_replicate|].
  apply Forall_replicate, length_replicate.
Qed.

Lemma get2_zeros (n i j : nat) : i < n → j < n → get2 (np_zeros n n) i j = Some 0%float.
Proof.
  intros Hi Hj. unfold get2, np_zeros.
  rewrite lookup_replicate_2 by done. simpl. by rewrite lookup_replicate_2.
Qed.

Lemma square_alter (n : nat) (A : matrix) (i j : nat) (v : float) :
  square n A → square n (alter (<[j := v]>) i A).
Proof.
  intros [Hl Hr]. split; [by rewrite length_alter|].
  apply Forall_alter; [done|]. intros r _ Hlen. by rewrite length_insert.
Qed.

Lemma get2_alter (n : nat) (A : matrix) (i j i' j' : nat) (v : float) :
  square n A → i < n → j < n →
  get2 (alter (<[j := v]>) i A) i' j' =
  if decide (i' = i ∧ j' = j) then Some v else get2 A i' j'.
Proof.
  intros [Hl Hr] Hi Hj. unfold get2.
  destruct (decide (i' = i)) as [->|Hne].
  - rewrite list_lookup_alter_eq.
    destruct (lookup_lt_is_Some_2 A i) as [r Hr']; [lia|].
    rewrite Hr'. simpl.
    assert (length r = n) as Hlen by (eapply Forall_lookup_1 in Hr; eauto).
    destruct (decide (j' = j)) as [->|Hnej].
    + rewrite decide_True by done. rewrite list_lookup_insert_eq; [done|lia].
    + rewrite decide_False by tauto. by rewrite list_lookup_insert_ne.
  - rewrite list_lookup_alter_ne by done. rewrite decide_False by tauto. done.
Qed.


Lemma put_distance_Ok (n : nat) (A A' : matrix) (x y dis : float) :
  Graph.put_distance n A (x, y, dis) = Ok A' ↔
  ∃ xi yi i j, Py.int x = Ok xi ∧ Py.int y = Ok yi ∧
    np_index n xi = Ok i ∧ np_index n yi = Ok j ∧
    A' = alter (<[i := dis]>) j (alter (<[j := dis]>) i A).
Proof.
  unfold Graph.put_distance, setitem2. split.
  - intros H.
    apply bind_Ok in H as (xi & Hx & H). apply bind_Ok in H as (yi & Hy & H).
    apply bind_Ok in H as (A1 & H1 & H).
    apply bind_Ok in H1 as (i & Hi & H1). apply bind_Ok in H1 as (j & Hj & H1).
    rewrite Hi, Hj in H. simpl in H. injection H1 as <-. injection H as <-.
    by exists xi, yi, i, j.
  - intros (xi & yi & i & j & -> & -> & Hi & Hj & ->). simpl.
    rewrite Hi, Hj. simpl. by rewrite ?Hi, ?Hj.
Qed.

Lemma get2_put (n : nat) (A : matrix) (i j i' j' : nat) (dis : float) :
  square n A → i < n → j < n →
  get2 (alter (<[i := dis]>) j (alter (<[j := dis]>) i A)) i' j' =
  if decide ((i' = i ∧ j' = j) ∨ (i' = j ∧ j' = i)) then Some dis else get2 A i' j'.
Proof.
  intros Hsq Hi Hj.
  rewrite (get2_alter n) by (auto using square_alter).
  rewrite (get2_alter n) by done.
  repeat case_decide; try done; tauto.
Qed.

Lemma put_distance_square (n : nat) (A A' : matrix) (r : Graph.row) :
  Graph.put_distance n A r = Ok A' → square n A → square n A'.
Proof.
  destruct r as [[x y] dis]. rewrite put_distance_Ok.
  intros (xi & yi & i & j & _ & _ & _ & _ & ->) Hsq. auto using square_alter.
Qed.

Lemma put_distance_symmetric (n : nat) (A A' : matrix) (r : Graph.row) :
  Graph.put_distance n A r = Ok A' → square n A → symmetric n A → symmetric n A'.
Proof.
  destruct r as [[x y] dis]. rewrite put_distance_Ok.
  intros (xi & yi & i & j & _ & _ & Hi%np_index_Ok & Hj%np_index_Ok & ->) Hsq Hsym i' j' Hi' Hj'.
  rewrite !(get2_put n) by done.
  destruct (Hsym i' j' Hi' Hj') as (a & Ha & Ha').
  repeat case_decide; eauto; tauto.
Qed.

Lemma put_distance_other (n : nat) (A A' : matrix) (r : Graph.row) (i j : nat) :
  Graph.put_distance n A r = Ok A' → square n A → (i, j) ∉ cells n r →
  get2 A' i j = get2 A i j.
Proof.
  destruct r as [[x y] dis]. rewrite put_distance_Ok.
  intros (xi & yi & a & b & Hx & Hy & Ha & Hb & ->) Hsq Hw.
  rewrite (get2_put n) by eauto using np_index_Ok.
  rewrite decide_False; [done|].
  intros Hc. apply Hw. unfold cells, row_indices. simpl.
  rewrite Hx, Hy. simpl. rewrite Ha, Hb.
  destruct Hc as [[-> ->]|[-> ->]]; [left | right; left].
Qed.

Lemma fill_invariant (n : nat) (distance : list Graph.row) (A D : matrix) :
  for_each (Graph.put_distance n) distance A = Ok D →
  square n A → symmetric n A → square n D ∧ symmetric n D.
Proof.
  revert A. induction distance as [|r rows IH]; intros A; simpl.
  - by intros [= <-].
  - intros (A1 & H1 & H)%bind_Ok Hsq Hsym.
    apply (IH A1 H); eauto using put_distance_square, put_distance_symmetric.
Qed.

Lemma fill_unassigned (n : nat) (distance : list Graph.row) (A D : matrix) (i j : nat) :
  for_each (Graph.put_distance n) distance A = Ok D →
  square n A → unassigned n distance i j → get2 D i j = get2 A i j.
Proof.
  revert A. induction distance as [|r rows IH]; intros A; simpl.
  - by intros [= <-].
  - intros (A1 & H1 & H)%bind_Ok Hsq [Hr Hun]%Forall_cons.
    rewrite (IH A1 H); eauto using put_distance_square, put_distance_other.
Qed.

Lemma symmetric_zeros (n : nat) : symmetric n (np_zeros n n).
Proof. intros i j Hi Hj. exists 0%float. by rewrite !get2_zeros. Qed.

Lemma distance_matrix_invariant (n : nat) (distance : list Graph.row) (D : matrix) :
  Graph.distance_matrix n distance = Ok D → square n D ∧ symmetric n D.
Proof.
  intros H. eapply fill_invariant; eauto using square_zeros, symmetric_zeros.
Qed.


Lemma get2_map (f : float → float) (A : matrix) (i j : nat) :
  get2 (map (map f) A) i j = f <$> get2 A i j.
Proof.
  unfold get2. rewrite list_lookup_fmap.
  destruct (A !! i) as [r|]; simpl; [|done]. by rewrite list_lookup_fmap.
Qed.


(** The matrix [adjacency] returns, cell by cell. *)
Lemma adjacency_Ok (np_exp : float → float) (cfg : config) (distance : list Graph.row)
    (A : matrix) :
  Graph.adjacency np_exp cfg distance = Ok A ↔
  ∃ D, Graph.distance_matrix (num_of_vertices cfg) distance = Ok D ∧
       A = map (map (λ d, Graph.threshold (epsilon cfg)
                            (Graph.kernel np_exp (Graph.distance_var D) d))) D.
Proof.
  unfold Graph.adjacency. rewrite bind_Ok. split.
  - intros (D & HD & [= <-]). exists D. split; [done|].
    rewrite <- list_fmap_compose. apply list_fmap_ext. intros _ r _. simpl.
    by rewrite <- list_fmap_compose.
  - intros (D & HD & ->). exists D. split; [done|]. f_equal.
    rewrite <- list_fmap_compose. apply list_fmap_ext. intros _ r _. simpl.
    by rewrite <- list_fmap_compose.
Qed.

Lemma data_preprocess_Ok (np_exp : float → float) (cfg : config)
    (junk : nat → nat → nat → float) (distance : list Graph.row)
    (data : Signal.signal_file) (A : matrix) (X : ndarray3 float) :
  data_preprocess np_exp cfg junk distance data = Ok (A, X) ↔
  Graph.adjacency np_exp cfg distance = Ok A ∧ Signal.graph_signal cfg junk data = Ok X.
Proof.
  unfold data_preprocess. rewrite bind_Ok. split.
  - intros (A' & HA & (X' & HX & [= <- <-])%bind_Ok). done.
  - intros [HA HX]. exists A. split; [done|]. by rewrite HX.
Qed.

Example data_preprocess_3 :
  data_preprocess exp_series cfg3 junk0 distance3 data3 = Ok (A3, X3).
Proof. vm_compute. reflexivity. Qed.

(** ** C1 *)

Lemma kernel_cells (np_exp : float → float) (cfg : config) (junk : nat → nat → nat → float)
    (distance : list Graph.row) (data : Signal.signal_file) (A : matrix) (X : ndarray3 float) :
  data_preprocess np_exp cfg junk distance data = Ok (A, X) →
  ∃ D, distance_matrix (num_of_vertices cfg) distance = Ok D ∧
    square (num_of_vertices cfg) D ∧ symmetric (num_of_vertices cfg) D ∧
    ∀ i j, get2 A i j =
      (λ d, threshold (epsilon cfg) (kernel np_exp (distance_var D) d)) <$> get2 D i j.
Proof.
  intros [HA _]%data_preprocess_Ok.
  apply adjacency_Ok in HA. destruct HA as (D & HD & HA). subst A.
  exists D. destruct (distance_matrix_invariant _ _ _ HD) as [Hsq Hsym].
  do 3 (split; [done|]). intros i j. apply get2_map.
Qed.




(** ** C10 *)






(** ** C9 *)

Lemma row_indices_Ok (r : Graph.row) (xi yi : Z) :
  row_indices r = Ok (xi, yi) ↔ Py.int r.1.1 = Ok xi ∧ Py.int r.1.2 = Ok yi.
Proof.
  unfold row_indices. destruct (Py.int r.1.1) as [a|e]; simpl.
  - destruct (Py.int r.1.2) as [b|e]; simpl; [|by split; [|intros []]].
    split; [by intros [= <- <-]|by intros [[= <-] [= <-]]].
  - by split; [|intros []].
Qed.










(** * Slices and windows *)

Lemma slice_bound_nat (n k : nat) : slice_bound n (Z.of_nat k) = Nat.min k n.
Proof.
  unfold slice_bound. destruct (Z.ltb_spec (Z.of_nat k) 0); [lia|].
  by rewrite Nat2Z.id.
Qed.

Lemma slice_lo_nat (n a : nat) : slice_lo n (Some (Z.of_nat a)) = Nat.min a n.
Proof. apply slice_bound_nat. Qed.

Lemma slice_lo_None (n : nat) : slice_lo n None = 0.
Proof. reflexivity. Qed.

Lemma slice_len_nat (n a b : nat) :
  slice_len n (Some (Z.of_nat a)) (Some (Z.of_nat b)) = Nat.min b n - Nat.min a n.
Proof. unfold slice_len. simpl. by rewrite slice_lo_nat, slice_bound_nat. Qed.

Lemma slice_len_from (n a : nat) : slice_len n (Some (Z.of_nat a)) None = n - Nat.min a n.
Proof.
  unfold slice_len. simpl. rewrite slice_lo_nat, slice_bound_nat. lia.
Qed.

Lemma slice_len_upto (n b : nat) : slice_len n None (Some (Z.of_nat b)) = Nat.min b n.
Proof.
  unfold slice_len. simpl. rewrite slice_lo_None, slice_bound_nat. lia.
Qed.

Lemma length_py_slice {A : Type} (start stop : option Z) (l : list A) :
  length (py_slice start stop l) = slice_len (length l) start stop.
Proof.
  unfold py_slice. rewrite length_take, length_drop.
  unfold slice_len, slice_lo.
  assert (∀ k, slice_bound (length l) k ≤ length l) as Hb.
  { intros k. unfold slice_bound. case_match; lia. }
  pose proof (Hb (default (Z.of_nat (length l)) stop)).
  pose proof (Hb (default 0%Z start)). lia.
Qed.

(** Cell [h] of [l[a:b]] is cell [a + h] of [l]. *)
Lemma lookup_py_slice {A : Type} (a b h : nat) (l : list A) :
  b ≤ length l → a + h < b →
  py_slice (Some (Z.of_nat a)) (Some (Z.of_nat b)) l !! h = l !! (a + h).
Proof.
  intros Hb Hh. unfold py_slice.
  rewrite slice_len_nat, slice_lo_nat.
  rewrite lookup_take_lt by lia. rewrite lookup_drop. f_equal. lia.
Qed.

Lemma lookup_py_slice_upto {A : Type} (b h : nat) (l : list A) :
  b ≤ length l → h < b →
  py_slice None (Some (Z.of_nat b)) l !! h = l !! h.
Proof.
  intros Hb Hh. unfold py_slice.
  rewrite slice_len_upto, slice_lo_None.
  rewrite lookup_take_lt by lia. by rewrite lookup_drop.
Qed.

Lemma lookup_py_slice_from {A : Type} (a h : nat) (l : list A) :
  a ≤ length l →
  py_slice (Some (Z.of_nat a)) None l !! h = l !! (a + h).
Proof.
  intros Ha. unfold py_slice.
  rewrite slice_len_from, slice_lo_nat.
  destruct (decide (a + h < length l)) as [Hlt|Hge].
  - rewrite lookup_take_lt by lia. rewrite lookup_drop. f_equal. lia.
  - rewrite lookup_take_ge by lia. symmetry. apply lookup_ge_None_2. lia.
Qed.

Lemma py_slice_all {A : Type} (l : list A) : py_slice None None l = l.
Proof.
  unfold py_slice, slice_len, slice_lo. simpl.
  rewrite slice_bound_nat. unfold slice_bound. simpl.
  rewrite take_ge; [done|]. rewrite length_drop. lia.
Qed.

Section Arrays.
Context {A : Type}.
Implicit Types X : ndarray3 A.

Lemma wf3_lookup X (V F T v f : nat) :
  wf3 X → shape3 X = (V, F, T) → v < V → f < F →
  ∃ m r, items3 X !! v = Some m ∧ m !! f = Some r ∧ length m = F ∧ length r = T.
Proof.
  unfold wf3. intros Hwf Hs Hv Hf. rewrite Hs in Hwf. destruct Hwf as [Hl Hm].
  destruct (lookup_lt_is_Some_2 (items3 X) v) as [m Hxm]; [lia|].
  pose proof (Forall_lookup_1 _ _ _ _ Hm Hxm) as [Hlm Hrows].
  destruct (lookup_lt_is_Some_2 m f) as [r Hmr]; [lia|].
  pose proof (Forall_lookup_1 _ _ _ _ Hrows Hmr) as Hlr.
  eauto 10.
Qed.

Lemma at3_wf X (V F T v f t : nat) (m : list (list A)) (r : list A) :
  items3 X !! v = Some m → m !! f = Some r → at3 X v f t = r !! t.
Proof. intros Hm Hr. unfold at3. rewrite Hm. simpl. by rewrite Hr. Qed.

Lemma shape3_slice_time X (V F T : nat) (start stop : option Z) :
  shape3 X = (V, F, T) → shape3 (slice_time X start stop) = (V, F, slice_len T start stop).
Proof. unfold slice_time. by intros ->. Qed.

Lemma items3_slice_time X (start stop : option Z) :
  items3 (slice_time X start stop) = map (map (py_slice start stop)) (items3 X).
Proof. unfold slice_time. by destruct (shape3 X) as [[??]?]. Qed.

Lemma wf3_slice_time X (V F T : nat) (start stop : option Z) :
  wf3 X → shape3 X = (V, F, T) → wf3 (slice_time X start stop).
Proof.
  unfold wf3. intros Hwf Hs. rewrite (shape3_slice_time X V F T) by done.
  rewrite items3_slice_time. rewrite Hs in Hwf. destruct Hwf as [Hl Hm].
  split; [by rewrite length_map|].
  apply Forall_fmap. eapply Forall_impl; [exact Hm|].
  intros m [Hlm Hrows]. simpl. split; [by rewrite length_map|].
  apply Forall_fmap. eapply Forall_impl; [exact Hrows|].
  intros r Hr. simpl. by rewrite length_py_slice, Hr.
Qed.

Lemma shape3_transpose X (V F T : nat) :
  shape3 X = (V, F, T) → shape3 (transpose_102 X) = (F, V, T).
Proof. unfold transpose_102. by intros ->. Qed.

Lemma items3_transpose X (V F T : nat) :
  shape3 X = (V, F, T) →
  items3 (transpose_102 X) =
  map (λ j, map (λ m, default [] (m !! j)) (items3 X)) (seq 0 F).
Proof. unfold transpose_102. by intros ->. Qed.

Lemma wf3_transpose X (V F T : nat) :
  wf3 X → shape3 X = (V, F, T) → wf3 (transpose_102 X).
Proof.
  unfold wf3. intros Hwf Hs. rewrite (shape3_transpose X V F T) by done.
  rewrite (items3_transpose X V F T) by done. rewrite Hs in Hwf. destruct Hwf as [Hl Hm].
  split; [by rewrite length_map, length_seq|].
  apply Forall_fmap, Forall_forall. intros j Hj%elem_of_seq. simpl.
  split; [by rewrite length_map|].
  apply Forall_fmap. eapply Forall_impl; [exact Hm|].
  intros m [Hlm Hrows]. simpl.
  destruct (lookup_lt_is_Some_2 m j) as [r Hr]; [lia|]. rewrite Hr. simpl.
  by eapply Forall_lookup_1 in Hrows.
Qed.

(** Cell [(f, v, t)] of the transpose is cell [(v, f, t)]. *)
Lemma at3_transpose X (V F T v f t : nat) :
  wf3 X → shape3 X = (V, F, T) → v < V → f < F →
  at3 (transpose_102 X) f v t = at3 X v f t.
Proof.
  intros Hwf Hs Hv Hf.
  destruct (wf3_lookup X V F T v f Hwf Hs Hv Hf) as (m & r & Hm & Hr & _ & _).
  rewrite (at3_wf X V F T v f t m r Hm Hr).
  unfold at3. rewrite (items3_transpose X V F T) by done.
  rewrite list_lookup_fmap, lookup_seq_lt by done. simpl.
  rewrite list_lookup_fmap, Hm. simpl. by rewrite Hr.
Qed.

(** Cell [t] of [X[:, :, a:b]] is cell [a + t] of [X]. *)
Lemma at3_slice_time X (V F T v f a b t : nat) :
  wf3 X → shape3 X = (V, F, T) → v < V → f < F → b ≤ T → a + t < b →
  at3 (slice_time X (Some (Z.of_nat a)) (Some (Z.of_nat b))) v f t = at3 X v f (a + t).
Proof.
  intros Hwf Hs Hv Hf Hb Ht.
  destruct (wf3_lookup X V F T v f Hwf Hs Hv Hf) as (m & r & Hm & Hr & _ & Hlr).
  rewrite (at3_wf X V F T v f _ m r Hm Hr).
  unfold at3. rewrite items3_slice_time.
  rewrite list_lookup_fmap, Hm. simpl. rewrite list_lookup_fmap, Hr. simpl.
  apply lookup_py_slice; lia.
Qed.

End Arrays.

Section WindowLemmas.
Context {A : Type}.
Implicit Types X : ndarray3 A.

Lemma stack3_uniform (xs : list (ndarray3 A)) (s : nat * nat * nat) :
  xs ≠ [] → Forall (λ y, shape3 y = s) xs →
  stack3 xs = Ok (Nd4 (length xs, s.1.1, s.1.2, s.2) (map items3 xs)).
Proof.
  intros Hne Hall. unfold stack3. destruct xs as [|x xs']; [done|].
  pose proof (Forall_inv Hall) as Hx. simpl in Hx.
  rewrite (proj2 (forallb_forall _ _)).
  - by rewrite Hx.
  - intros y Hy%list_elem_of_In. apply bool_decide_eq_true_2.
    rewrite Hx. by eapply Forall_forall in Hall.
Qed.

Lemma stack2_uniform (xs : list (ndarray2 A)) (s : nat * nat) :
  xs ≠ [] → Forall (λ y, shape2 y = s) xs →
  stack2 xs = Ok (Nd3 (length xs, s.1, s.2) (map items2 xs)).
Proof.
  intros Hne Hall. unfold stack2. destruct xs as [|x xs']; [done|].
  pose proof (Forall_inv Hall) as Hx. simpl in Hx.
  rewrite (proj2 (forallb_forall _ _)).
  - by rewrite Hx.
  - intros y Hy%list_elem_of_In. apply bool_decide_eq_true_2.
    rewrite Hx. by eapply Forall_forall in Hall.
Qed.

Lemma np_index_zero (n : nat) : 1 ≤ n → np_index n 0 = Ok 0.
Proof. intros Hn. unfold np_index. by destruct n; [lia|]. Qed.

(** The loop of [build_dataset] appends one history and one target per
    window, in the order of [indices]. *)
Lemma add_samples (cfg : config) X (V F T : nat) (l : list nat)
    (fs : list (ndarray3 A)) (ts : list (ndarray2 A)) :
  shape3 X = (V, F, T) → 1 ≤ F →
  let span := num_points_for_train cfg + num_points_for_predict cfg in
  for_each (Windows.add_sample cfg X) (map (λ i, (i, i + span)) l) (fs, ts) =
  Ok (fs ++ map (Windows.window_history cfg X) l,
      ts ++ map (λ i, Nd2 (V, slice_len T (Some (Z.of_nat (i + num_points_for_train cfg)))
                                         (Some (Z.of_nat (i + span))))
                          (Windows.window_target cfg X i)) l).
Proof.
  intros Hs HF span. revert fs ts. induction l as [|i l IH]; intros fs ts; simpl.
  - by rewrite !app_nil_r.
  - unfold take_channel. rewrite Hs, (np_index_zero F HF). simpl.
    rewrite IH. by rewrite <- !app_assoc.
Qed.

(** What [build_dataset] returns on a well-formed array that is long enough
    and has a channel to predict. *)
Lemma build_dataset_Ok (cfg : config) X (V F T : nat) :
  wf3 X → shape3 X = (V, F, T) → 1 ≤ F →
  num_points_for_train cfg + num_points_for_predict cfg ≤ T →
  Windows.build_dataset cfg X =
  Ok (Nd4 (Windows.window_count cfg T, F, V, num_points_for_train cfg)
          (map (λ i, items3 (Windows.window_history cfg X i)) (seq 0 (Windows.window_count cfg T))),
      Nd3 (Windows.window_count cfg T, V, num_points_for_predict cfg)
          (map (Windows.window_target cfg X) (seq 0 (Windows.window_count cfg T)))).
Proof.
  intros Hwf Hs HF HT. unfold Windows.build_dataset, Windows.indices, range.
  rewrite Hs. simpl.
  replace (Z.to_nat _) with (Windows.window_count cfg T) by (unfold Windows.window_count; lia).
  rewrite (add_samples cfg X V F T) by done. simpl.
  set (N := Windows.window_count cfg T).
  assert (0 < N) as HN by (unfold N, Windows.window_count; lia).
  rewrite (stack3_uniform _ (F, V, num_points_for_train cfg)).
  - simpl. rewrite (stack2_uniform _ (V, num_points_for_predict cfg)).
    + simpl. rewrite !length_map, !length_seq, <- !list_fmap_compose. done.
    + destruct N; [lia|done].
    + apply Forall_fmap, Forall_forall. intros i Hi%elem_of_seq. simpl.
      rewrite slice_len_nat. f_equal. unfold N, Windows.window_count in Hi. lia.
  - destruct N; [lia|done].
  - apply Forall_fmap, Forall_forall. intros i Hi%elem_of_seq. simpl.
    unfold Windows.window_history.
    rewrite (shape3_transpose _ V F (num_points_for_train cfg)); [done|].
    rewrite (shape3_slice_time X V F T) by done.
    rewrite slice_len_nat. do 2 f_equal. unfold N, Windows.window_count in Hi. lia.
Qed.

End WindowLemmas.

Section WindowTheorems.
Context {A : Type}.
Implicit Types X : ndarray3 A.

Lemma wf3_window_history (cfg : config) X (V F T i : nat) :
  wf3 X → shape3 X = (V, F, T) → i + num_points_for_train cfg ≤ T →
  wf3 (Windows.window_history cfg X i) ∧
  shape3 (Windows.window_history cfg X i) = (F, V, num_points_for_train cfg).
Proof.
  intros Hwf Hs Hi. unfold Windows.window_history.
  set (Y := slice_time X _ _).
  assert (shape3 Y = (V, F, num_points_for_train cfg)) as HY.
  { unfold Y. rewrite (shape3_slice_time X V F T) by done.
    rewrite slice_len_nat. do 2 f_equal. lia. }
  assert (wf3 Y) as HwfY by (by eapply wf3_slice_time).
  split; [by eapply wf3_transpose|by eapply shape3_transpose].
Qed.

Lemma at3_window_history (cfg : config) X (V F T i f v h : nat) :
  wf3 X → shape3 X = (V, F, T) → i + num_points_for_train cfg ≤ T →
  f < F → v < V → h < num_points_for_train cfg →
  at3 (Windows.window_history cfg X i) f v h = at3 X v f (i + h).
Proof.
  intros Hwf Hs Hi Hf Hv Hh. unfold Windows.window_history.
  set (Y := slice_time X _ _).
  assert (shape3 Y = (V, F, num_points_for_train cfg)) as HY.
  { unfold Y. rewrite (shape3_slice_time X V F T) by done.
    rewrite slice_len_nat. do 2 f_equal. lia. }
  assert (wf3 Y) as HwfY by (by eapply wf3_slice_time).
  rewrite (at3_transpose Y V F _ v f h) by done.
  unfold Y. apply (at3_slice_time X V F T); try done; lia.
Qed.

Lemma window_target_rows (cfg : config) X (V F T i : nat) :
  wf3 X → shape3 X = (V, F, T) → 1 ≤ F →
  i + (num_points_for_train cfg + num_points_for_predict cfg) ≤ T →
  length (Windows.window_target cfg X i) = V ∧
  rows_of (num_points_for_predict cfg) (Windows.window_target cfg X i).
Proof.
  intros Hwf Hs HF Hi. unfold Windows.window_target.
  pose proof Hwf as Hwf'. unfold wf3 in Hwf'. rewrite Hs in Hwf'.
  destruct Hwf' as [Hl Hm].
  split; [by rewrite length_map|].
  apply Forall_fmap. eapply Forall_impl; [exact Hm|].
  intros m [Hlm Hrows]. simpl.
  destruct (lookup_lt_is_Some_2 m 0) as [r Hr]; [lia|]. rewrite Hr. simpl.
  rewrite length_py_slice, slice_len_nat.
  eapply Forall_lookup_1 in Hrows; [|exact Hr]. simpl in Hrows. lia.
Qed.

Lemma lookup_window_target (cfg : config) X (V F T i v p : nat) :
  wf3 X → shape3 X = (V, F, T) → 1 ≤ F →
  i + (num_points_for_train cfg + num_points_for_predict cfg) ≤ T →
  v < V → p < num_points_for_predict cfg →
  (r ← Windows.window_target cfg X i !! v; r !! p) =
  at3 X v 0 (i + num_points_for_train cfg + p).
Proof.
  intros Hwf Hs HF Hi Hv Hp.
  destruct (wf3_lookup X V F T v 0 Hwf Hs Hv) as (m & r & Hm & Hr & _ & Hlr); [lia|].
  rewrite (at3_wf X V F T v 0 _ m r Hm Hr).
  unfold Windows.window_target. rewrite list_lookup_fmap, Hm. simpl. rewrite Hr. simpl.
  rewrite lookup_py_slice by lia. f_equal.
Qed.

(** C2: on a signal of [T >= H + P] time steps, [build_dataset] returns
    [T - (H + P) + 1] samples; every history has shape [(F, V, H)] and every
    target shape [(V, P)]; sample [i] is the window that starts at time step
    [i], so the windows come in increasing order with stride 1. *)
Theorem build_dataset_samples (cfg : config) X (V F T : nat) :
  wf3 X → shape3 X = (V, F, T) → 1 ≤ F →
  num_points_for_train cfg + num_points_for_predict cfg ≤ T →
  let H := num_points_for_train cfg in
  let P := num_points_for_predict cfg in
  let N := T - (H + P) + 1 in
  ∃ features target,
    Windows.build_dataset cfg X = Ok (features, target) ∧
    shape4 features = (N, F, V, H) ∧ wf4 features ∧
    shape3 target = (N, V, P) ∧ wf3 target ∧
    ∀ i, i < N →
      items4 features !! i =
        Some (items3 (transpose_102
                (slice_time X (Some (Z.of_nat i)) (Some (Z.of_nat (i + H)))))) ∧
      ∀ f v h, f < F → v < V → h < H → at4 features i f v h = at3 X v f (i + h).
Proof.
  intros Hwf Hs HF HT H P N.
  eexists _, _. split; [by apply (build_dataset_Ok cfg X V F T)|].
  fold H P. change (Windows.window_count cfg T) with N.
  split; [done|]. split; [|split; [done|split]].
  - unfold wf4. simpl. split; [by rewrite length_map, length_seq|].
    apply Forall_fmap, Forall_forall. intros i Hi%elem_of_seq. simpl.
    destruct (wf3_window_history cfg X V F T i Hwf Hs) as [Hw Hsh]; [unfold N in *; lia|].
    unfold wf3 in Hw. by rewrite Hsh in Hw.
  - unfold wf3. simpl. split; [by rewrite length_map, length_seq|].
    apply Forall_fmap, Forall_forall. intros i Hi%elem_of_seq. simpl.
    apply (window_target_rows cfg X V F T); try done. unfold N in *. lia.
  - intros i Hi.
    assert (items4 (Nd4 (N, F, V, H)
              (map (λ i, items3 (Windows.window_history cfg X i)) (seq 0 N))) !! i =
            Some (items3 (Windows.window_history cfg X i))) as Hitem.
    { simpl. by rewrite list_lookup_fmap, lookup_seq_lt. }
    split; [exact Hitem|].
    intros f v h Hf Hv Hh. unfold at4. rewrite Hitem. simpl.
    apply (at3_window_history cfg X V F T); try done. unfold N in *. lia.
Qed.

(** C3: the target of sample [i] is [X[:, 0, i+H : i+H+P]]: cell [(v, p)] is
    the first channel of vertex [v] at time step [i + H + p].  No other
    channel is read: two signals with the same [X[:, 0, :]] get the same
    targets. *)
Theorem build_dataset_target (cfg : config) X (V F T : nat) :
  wf3 X → shape3 X = (V, F, T) → 1 ≤ F →
  num_points_for_train cfg + num_points_for_predict cfg ≤ T →
  let H := num_points_for_train cfg in
  let P := num_points_for_predict cfg in
  let N := T - (H + P) + 1 in
  ∃ features target,
    Windows.build_dataset cfg X = Ok (features, target) ∧
    (∀ i, i < N →
       ∃ t, items3 target !! i = Some t ∧
            take_channel X 0 (Some (Z.of_nat (i + H))) (Some (Z.of_nat (i + H + P))) =
              Ok (Nd2 (V, P) t) ∧
            ∀ v p, v < V → p < P → at3 target i v p = at3 X v 0 (i + H + p)) ∧
    ∀ X' features' target',
      wf3 X' → shape3 X' = (V, F, T) →
      take_channel X' 0 None None = take_channel X 0 None None →
      Windows.build_dataset cfg X' = Ok (features', target') →
      target' = target.
Proof.
  intros Hwf Hs HF HT H P N.
  eexists _, _. split; [by apply (build_dataset_Ok cfg X V F T)|].
  fold H P. change (Windows.window_count cfg T) with N. split.
  - intros i Hi.
    assert (map (Windows.window_target cfg X) (seq 0 N) !! i = Some (Windows.window_target cfg X i))
      as Hitem by (by rewrite list_lookup_fmap, lookup_seq_lt).
    exists (Windows.window_target cfg X i). simpl. split; [done|]. split.
    + unfold take_channel. rewrite Hs, (np_index_zero F HF). simpl.
      rewrite slice_len_nat. unfold Windows.window_target. fold H P.
      replace (i + H + P) with (i + (H + P)) by lia.
      do 3 f_equal. unfold N in Hi. lia.
    + intros v p Hv Hp. unfold at3. simpl. rewrite Hitem. simpl.
      apply (lookup_window_target cfg X V F T); try done. unfold N in Hi. lia.
  - intros X' features' target' Hwf' Hs' Hch.
    rewrite (build_dataset_Ok cfg X' V F T) by done.
    intros [= _ <-]. change (Windows.window_count cfg T) with N. f_equal.
    apply list_fmap_ext. intros _ i _.
    unfold take_channel in Hch. rewrite Hs, Hs', (np_index_zero F HF) in Hch.
    simpl in Hch. injection Hch as Hch.
    assert (∀ (a b : option Z) (l : list (list (list A))),
              map (λ m, py_slice a b (default [] (m !! 0))) l =
              map (py_slice a b)
                  (map (λ m, py_slice None None (default [] (m !! 0))) l)) as E.
    { intros a b l. rewrite <- list_fmap_compose. apply list_fmap_ext.
      intros _ m _. simpl. by rewrite py_slice_all. }
    unfold Windows.window_target.
    rewrite (E (Some _) (Some _) (items3 X')), (E (Some _) (Some _) (items3 X)).
    by rewrite Hch.
Qed.

End WindowTheorems.

Lemma wf3_X3 : wf3 X3.
Proof. split; [reflexivity|]. repeat constructor. Qed.

Lemma build_dataset_samples_witness :
  wf3 X3 ∧ shape3 X3 = (3, 3, 6) ∧ 1 ≤ 3 ∧
  num_points_for_train cfg3 + num_points_for_predict cfg3 ≤ 6 ∧
  ∃ features target,
    Windows.build_dataset cfg3 X3 = Ok (features, target) ∧
    shape4 features = (4, 3, 3, 2) ∧ wf4 features ∧
    shape3 target = (4, 3, 1) ∧ wf3 target ∧
    ∀ i, i < 4 →
      items4 features !! i =
        Some (items3 (transpose_102
                (slice_time X3 (Some (Z.of_nat i)) (Some (Z.of_nat (i + 2)))))) ∧
      ∀ f v h, f < 3 → v < 3 → h < 2 → at4 features i f v h = at3 X3 v f (i + h).
Proof.
  split; [exact wf3_X3|]. split; [reflexivity|]. split; [lia|]. split; [simpl; lia|].
  apply (build_dataset_samples cfg3 X3 3 3 6 wf3_X3); [reflexivity|lia|simpl; lia].
Defined.

Lemma build_dataset_target_witness :
  wf3 X3 ∧ shape3 X3 = (3, 3, 6) ∧ 1 ≤ 3 ∧
  num_points_for_train cfg3 + num_points_for_predict cfg3 ≤ 6 ∧
  ∃ features target,
    Windows.build_dataset cfg3 X3 = Ok (features, target) ∧
    (∀ i, i < 4 →
       ∃ t, items3 target !! i = Some t ∧
            take_channel X3 0 (Some (Z.of_nat (i + 2))) (Some (Z.of_nat (i + 2 + 1))) =
              Ok (Nd2 (3, 1) t) ∧
            ∀ v p, v < 3 → p < 1 → at3 target i v p = at3 X3 v 0 (i + 2 + p)) ∧
    ∀ X' features' target',
      wf3 X' → shape3 X' = (3, 3, 6) →
      take_channel X' 0 None None = take_channel X3 0 None None →
      Windows.build_dataset cfg3 X' = Ok (features', target') →
      target' = target.
Proof.
  split; [exact wf3_X3|]. split; [reflexivity|]. split; [lia|]. split; [simpl; lia|].
  apply (build_dataset_target cfg3 X3 3 3 6 wf3_X3); [reflexivity|lia|simpl; lia].
Defined.

(** * The split *)

Lemma split_ok_from_spec (fuel : nat) (T0 T : Z) :
  Pipeline.split_ok_from T0 fuel = true → (T0 <= T < T0 + Z.of_nat fuel)%Z → Pipeline.split_ok T = true.
Proof.
  revert T0. induction fuel as [|fuel IH]; intros T0; simpl; [lia|].
  intros [H0 Hrest]%andb_prop HT.
  destruct (decide (T = T0)) as [->|Hne]; [done|].
  apply (IH (T0 + 1)%Z Hrest). lia.
Qed.

Lemma split_ok_checked : Pipeline.split_ok_from 0 (S Pipeline.max_steps) = true.
Proof. vm_compute. reflexivity. Qed.

Lemma split_lines (T : nat) :
  T ≤ Pipeline.max_steps →
  Py.int (float_of_nat T * 0.6)%float = Ok (Z.of_nat (3 * T / 5)) ∧
  Py.int (float_of_nat T * 0.8)%float = Ok (Z.of_nat (4 * T / 5)).
Proof.
  intros HT.
  assert (Pipeline.split_ok (Z.of_nat T) = true) as Hok.
  { apply (split_ok_from_spec _ 0 _ split_ok_checked). lia. }
  unfold Pipeline.split_ok in Hok. unfold float_of_nat.
  destruct (Py.int (float_of_Z (Z.of_nat T) * 0.6)%float) as [a|]; [|discriminate].
  destruct (Py.int (float_of_Z (Z.of_nat T) * 0.8)%float) as [b|]; [|discriminate].
  apply andb_prop in Hok as [Ha Hb].
  apply Z.eqb_eq in Ha, Hb. subst a b.
  by rewrite !Nat2Z.inj_div, !Nat2Z.inj_mul.
Qed.

Lemma lookup_py_slice_gen {A : Type} (start stop : option Z) (h : nat) (l : list A) :
  h < slice_len (length l) start stop →
  py_slice start stop l !! h = l !! (slice_lo (length l) start + h).
Proof.
  intros Hh. unfold py_slice. rewrite lookup_take_lt by done. apply lookup_drop.
Qed.

Section Partitions.
Context {A : Type}.
Implicit Types X Y : ndarray3 A.

(** Cell [t] of [X[:, :, start:stop]] is the cell of [X] that many steps after
    the start of the slice. *)
Lemma at3_slice_time_gen X (V F T v f t : nat) (start stop : option Z) :
  wf3 X → shape3 X = (V, F, T) → v < V → f < F → t < slice_len T start stop →
  at3 (slice_time X start stop) v f t = at3 X v f (slice_lo T start + t).
Proof.
  intros Hwf Hs Hv Hf Ht.
  destruct (wf3_lookup X V F T v f Hwf Hs Hv Hf) as (m & r & Hm & Hr & _ & Hlr).
  rewrite (at3_wf X V F T v f _ m r Hm Hr).
  unfold at3. rewrite items3_slice_time.
  rewrite list_lookup_fmap, Hm. simpl. rewrite list_lookup_fmap, Hr. simpl.
  rewrite lookup_py_slice_gen; rewrite Hlr; done.
Qed.

(** [build_dataset] returns only when there is a channel to predict and room
    for one window. *)
Lemma build_dataset_Ok_inv (cfg : config) Y (V F T : nat)
    (features : ndarray4 A) (target : ndarray3 A) :
  shape3 Y = (V, F, T) →
  Windows.build_dataset cfg Y = Ok (features, target) →
  1 ≤ F ∧ num_points_for_train cfg + num_points_for_predict cfg ≤ T.
Proof.
  intros Hs. unfold Windows.build_dataset, Windows.indices, range. rewrite Hs. simpl.
  set (span := num_points_for_train cfg + num_points_for_predict cfg).
  destruct (decide (span ≤ T)) as [Hle|Hgt].
  - destruct (decide (1 ≤ F)) as [HF|HF]; [done|].
    replace (Z.to_nat _) with (S (T - span)) by lia. simpl.
    unfold take_channel. rewrite Hs. replace F with 0 by lia. done.
  - replace (Z.to_nat _) with 0 by lia. done.
Qed.

(** The windows of a slice of [X], read in [X]: window [i] of a slice that
    starts at time step [off] covers steps [off + i] to [off + i + H + P - 1],
    all of them inside the slice. *)
Lemma windows_of_slice (cfg : config) X Y (V F T off len : nat)
    (features : ndarray4 A) (target : ndarray3 A) :
  wf3 Y → shape3 Y = (V, F, len) →
  (∀ v f t, v < V → f < F → t < len → at3 Y v f t = at3 X v f (off + t)) →
  Windows.build_dataset cfg Y = Ok (features, target) →
  let H := num_points_for_train cfg in
  let P := num_points_for_predict cfg in
  shape4 features = (len - (H + P) + 1, F, V, H) ∧
  shape3 target = (len - (H + P) + 1, V, P) ∧
  ∀ i, i < len - (H + P) + 1 →
    i + H + P ≤ len ∧
    (∀ f v h, f < F → v < V → h < H →
       at4 features i f v h = at3 X v f (off + i + h)) ∧
    (∀ v p, v < V → p < P → at3 target i v p = at3 X v 0 (off + i + H + p)).
Proof.
  intros Hwf Hs Hcell Hb H P.
  destruct (build_dataset_Ok_inv cfg Y V F len _ _ Hs Hb) as [HF Hlen].
  rewrite (build_dataset_Ok cfg Y V F len) in Hb by done.
  injection Hb as <- <-. fold H P. unfold Windows.window_count. fold H P.
  do 2 (split; [done|]). intros i Hi.
  split; [lia|]. split.
  - intros f v h Hf Hv Hh. unfold at4. simpl.
    rewrite list_lookup_fmap, lookup_seq_lt by done. simpl.
    fold (at3 (Windows.window_history cfg Y i) f v h).
    rewrite (at3_window_history cfg Y V F len) by (try done; fold H; lia).
    rewrite Hcell by (try done; lia). f_equal. lia.
  - intros v p Hv Hp. unfold at3 at 1. simpl.
    rewrite list_lookup_fmap, lookup_seq_lt by done. simpl.
    rewrite (lookup_window_target cfg Y V F len) by (try done; fold H P; lia).
    rewrite Hcell by (try done; fold H; lia). f_equal. fold H. lia.
Qed.

(** The three slices of the script, for a time axis within [Pipeline.max_steps]. *)
Lemma split_slices X (V F T : nat) :
  wf3 X → shape3 X = (V, F, T) → T ≤ Pipeline.max_steps →
  let s1 := 3 * T / 5 in
  let s2 := 4 * T / 5 in
  Pipeline.split_line1 X = Ok (Z.of_nat s1) ∧
  Pipeline.split_line2 X = Ok (Z.of_nat s2) ∧
  Pipeline.train_original_data X = Ok (slice_time X None (Some (Z.of_nat s1))) ∧
  Pipeline.val_original_data X =
    Ok (slice_time X (Some (Z.of_nat s1)) (Some (Z.of_nat s2))) ∧
  Pipeline.test_original_data X = Ok (slice_time X (Some (Z.of_nat s2)) None).
Proof.
  intros Hwf Hs HT s1 s2.
  destruct (split_lines T HT) as [H1 H2].
  unfold Pipeline.train_original_data, Pipeline.val_original_data,
    Pipeline.test_original_data, Pipeline.split_line1, Pipeline.split_line2.
  rewrite Hs. simpl. by rewrite H1, H2.
Qed.

End Partitions.

Section PartitionTheorem.
Context {A : Type}.
Implicit Types X Y : ndarray3 A.

Lemma slice_time_slice_of X (V F T a b : nat) :
  wf3 X → shape3 X = (V, F, T) → a ≤ b → b ≤ T →
  Pipeline.slice_of X V F (slice_time X (Some (Z.of_nat a)) (Some (Z.of_nat b))) a (b - a).
Proof.
  intros Hwf Hs Hab HbT. split; [by eapply wf3_slice_time|]. split.
  - rewrite (shape3_slice_time X V F T) by done. rewrite slice_len_nat.
    f_equal; lia.
  - intros v f t Hv Hf Ht.
    rewrite (at3_slice_time_gen X V F T) by (try done; rewrite slice_len_nat; lia).
    rewrite slice_lo_nat. f_equal. lia.
Qed.

Lemma slice_upto_slice_of X (V F T b : nat) :
  wf3 X → shape3 X = (V, F, T) → b ≤ T →
  Pipeline.slice_of X V F (slice_time X None (Some (Z.of_nat b))) 0 b.
Proof.
  intros Hwf Hs HbT. split; [by eapply wf3_slice_time|]. split.
  - rewrite (shape3_slice_time X V F T) by done. rewrite slice_len_upto.
    f_equal; lia.
  - intros v f t Hv Hf Ht.
    by rewrite (at3_slice_time_gen X V F T) by (try done; rewrite slice_len_upto; lia).
Qed.

Lemma slice_from_slice_of X (V F T a : nat) :
  wf3 X → shape3 X = (V, F, T) → a ≤ T →
  Pipeline.slice_of X V F (slice_time X (Some (Z.of_nat a)) None) a (T - a).
Proof.
  intros Hwf Hs HaT. split; [by eapply wf3_slice_time|]. split.
  - rewrite (shape3_slice_time X V F T) by done. rewrite slice_len_from.
    f_equal; lia.
  - intros v f t Hv Hf Ht.
    rewrite (at3_slice_time_gen X V F T) by (try done; rewrite slice_len_from; lia).
    rewrite slice_lo_nat. f_equal. lia.
Qed.


End PartitionTheorem.


(** * The scaler *)

Section Scaling.
Context {S : Type} `{Pipeline.Scaler S}.

Lemma prepare_Ok (cfg : config) (X : ndarray3 float) (r : Pipeline.prepared S) :
  Pipeline.prepare cfg X = Ok r → Pipeline.prepare_trace cfg X r.
Proof.
  unfold Pipeline.prepare. intros Hp.
  apply bind_Ok in Hp as (train & Htrain & Hp).
  apply bind_Ok in Hp as (val & Hval & Hp).
  apply bind_Ok in Hp as (test & Htest & Hp).
  apply bind_Ok in Hp as ([td tt] & Htd & Hp).
  apply bind_Ok in Hp as ([vd vt] & Hvd & Hp).
  apply bind_Ok in Hp as ([sd st] & Hsd & Hp).
  apply bind_Ok in Hp as (u1 & Ha1 & Hp).
  apply bind_Ok in Hp as (u2 & Ha2 & Hp).
  unfold Pipeline.assert in Ha1, Ha2.
  destruct (bool_decide _) eqn:E1 in Ha1; [|discriminate].
  destruct (bool_decide _) eqn:E2 in Ha2; [|discriminate].
  apply bool_decide_eq_true_1 in E1, E2.
  apply bind_Ok in Hp as (flat & Hflat & Hp).
  apply bind_Ok in Hp as ([tf out] & Hfit & Hp).
  apply bind_Ok in Hp as (tn & Htn & Hp).
  apply bind_Ok in Hp as (vn & Hvn & Hp).
  apply bind_Ok in Hp as (sn & Hsn & Hp).
  injection Hp as <-. by econstructor.
Qed.


End Scaling.

(** * The training loop *)

Lemma for_each_app {A S : Type} (body : S → A → result S) (xs ys : list A) (acc : S) :
  for_each body (xs ++ ys) acc = for_each body xs acc ≫= for_each body ys.
Proof.
  revert acc. induction xs as [|x xs IH]; intros acc; simpl; [done|].
  destruct (body acc x) as [acc'|e]; simpl; [apply IH|done].
Qed.

Lemma decays_succ (cfg : config) (n : nat) :
  (0 < decay_interval cfg)%Z →
  Training.decays cfg (S n) =
  if ((Z.of_nat n + 1) mod decay_interval cfg =? 0)%Z then S (Training.decays cfg n) else Training.decays cfg n.
Proof.
  intros Hd. unfold Training.decays. set (d := decay_interval cfg) in *.
  rewrite Nat2Z.inj_succ. unfold Z.succ.
  set (a := Z.of_nat n). assert (0 <= a)%Z as Ha by lia.
  pose proof (Z.div_mod a d ltac:(lia)) as E1.
  pose proof (Z.mod_pos_bound a d Hd) as B1.
  pose proof (Z.div_mod (a + 1) d ltac:(lia)) as E2.
  pose proof (Z.mod_pos_bound (a + 1) d Hd) as B2.
  assert (0 <= a / d)%Z as Hq by (apply Z.div_pos; lia).
  destruct (Z.eqb_spec ((a + 1) mod d) 0) as [E0|E0].
  - assert ((a + 1) / d = a / d + 1)%Z as -> by nia. lia.
  - assert ((a + 1) / d = a / d)%Z as -> by nia. done.
Qed.

Section Engine.
Context {params batch : Type}.
Variable train_step : float → params → batch → params * float.
Variable eval_loss : params → batch → float.
Variable cfg : config.
Variable training_dataloader : nat → list batch.
Variables validation_dataloader testing_dataloader : list batch.

Abbreviation run_epoch :=
  (Training.run_epoch params batch train_step eval_loss cfg
     training_dataloader validation_dataloader testing_dataloader).
Abbreviation train_batches := (Training.train_batches params batch train_step).
Abbreviation state := (Training.state params).

(** No batch, no epoch: the three loaders yield something. *)
Hypothesis training_batches : ∀ epoch, training_dataloader epoch ≠ [].
Hypothesis validation_batches : validation_dataloader ≠ [].
Hypothesis testing_batches : testing_dataloader ≠ [].
Hypothesis interval_positive : (0 < decay_interval cfg)%Z.

Lemma train_batches_losses (rate : float) (p : params) (bs : list batch) (losses : list float) :
  length (fold_left (λ '(p, losses) xy,
                       let '(p', l) := train_step rate p xy in (p', losses ++ [l]))
                    bs (p, losses)).2 = length losses + length bs.
Proof.
  revert p losses. induction bs as [|b bs IH]; intros p losses; simpl; [lia|].
  destruct (train_step rate p b) as [p' l]. rewrite IH, length_app. simpl. lia.
Qed.

Lemma mean_Ok (l : list float) : l ≠ [] → ∃ m, Training.mean l = Ok m.
Proof. destruct l; [done|]. intros _. eexists. reflexivity. Qed.

(** One epoch, when the loaders are not empty. *)
Lemma run_epoch_Ok (s : state) (epoch : nat) :
  ∃ s', run_epoch s epoch = Ok s' ∧
    Training.lr s' =
      (if ((Z.of_nat epoch + 1) mod decay_interval cfg =? 0)%Z
       then (Training.lr s * decay_rate cfg)%float else Training.lr s) ∧
    map fst (Training.saved s') =
      map fst (Training.saved s) ++
      (if ((Z.of_nat epoch + 1) mod 5 =? 0)%Z then [Training.checkpoint_name epoch] else []) ∧
    Training.steps s' =
      Training.steps s ++ map (λ _, (epoch, Training.lr s)) (training_dataloader epoch) ∧
    length (Training.train_loss_list s') = S (length (Training.train_loss_list s)) ∧
    length (Training.val_loss_list s') = S (length (Training.val_loss_list s)) ∧
    length (Training.test_loss_list s') = S (length (Training.test_loss_list s)).
Proof.
  unfold Training.run_epoch.
  destruct (train_batches (Training.lr s) (Training.net s) (training_dataloader epoch))
    as [p losses] eqn:Etb.
  assert (losses ≠ []) as Hl.
  { pose proof (train_batches_losses (Training.lr s) (Training.net s)
                  (training_dataloader epoch) []) as Hlen.
    unfold Training.train_batches in Etb. rewrite Etb in Hlen. simpl in Hlen.
    pose proof (training_batches epoch) as Hne.
    destruct (training_dataloader epoch); [done|]. destruct losses; [simpl in Hlen; lia|done]. }
  destruct (mean_Ok losses Hl) as [m1 ->]. simpl.
  destruct (mean_Ok (map (eval_loss p) validation_dataloader)) as [m2 ->].
  { by destruct validation_dataloader. }
  simpl.
  destruct (mean_Ok (map (eval_loss p) testing_dataloader)) as [m3 ->].
  { by destruct testing_dataloader. }
  simpl.
  destruct (Z.eqb_spec (decay_interval cfg) 0) as [E0|_]; [lia|].
  eexists. split; [reflexivity|]. simpl.
  split; [done|]. split.
  - destruct (_ =? 0)%Z; [|by rewrite app_nil_r]. by rewrite map_app.
  - by rewrite !length_app, !Nat.add_1_r.
Qed.

(** The state after the first [n] epochs. *)
Lemma epochs_Ok (p : params) (n : nat) :
  ∃ s, for_each run_epoch (seq 0 n) (Training.initial params cfg p) = Ok s ∧
    Training.lr s = Training.decayed cfg (Training.decays cfg n) ∧
    map fst (Training.saved s) = map Training.checkpoint_name (Training.checkpoint_epochs n) ∧
    Training.steps s =
      flat_map (λ epoch, map (λ _, (epoch, Training.decayed cfg (Training.decays cfg epoch)))
                             (training_dataloader epoch)) (seq 0 n) ∧
    length (Training.train_loss_list s) = n ∧
    length (Training.val_loss_list s) = n ∧
    length (Training.test_loss_list s) = n.
Proof.
  induction n as [|n (s & Hs & Hlr & Hsaved & Hsteps & Hl1 & Hl2 & Hl3)].
  - eexists. split; [reflexivity|]. done.
  - destruct (run_epoch_Ok s n) as (s' & Hs' & Hlr' & Hsaved' & Hsteps' & Hl1' & Hl2' & Hl3').
    exists s'. rewrite seq_S, for_each_app, Hs. simpl.
    destruct (run_epoch s n) as [s''|e]; [|discriminate]. injection Hs' as ->. simpl.
    split; [done|]. split; [|split; [|split; [|lia]]].
    + rewrite Hlr', Hlr, decays_succ by done.
      destruct ((Z.of_nat n + 1) mod decay_interval cfg =? 0)%Z; [|done].
      unfold Training.decayed. by rewrite Nat.iter_succ.
    + rewrite Hsaved', Hsaved. unfold Training.checkpoint_epochs.
      rewrite seq_S, List.filter_app, map_app. cbn [List.filter Nat.add].
      by destruct ((Z.of_nat n + 1) mod 5 =? 0)%Z.
    + rewrite Hsteps', Hsteps, Hlr, flat_map_app. simpl. by rewrite app_nil_r.
Qed.

End Engine.

(** C4 (as amended): a run that completes writes one checkpoint at the end of
    every epoch whose one-based number is a multiple of 5, and writes no
    other; the file is named after the loop variable [epoch], which counts
    from zero.  Twelve epochs leave [stgcn.params_4] and [stgcn.params_9]. *)
Theorem checkpoints_every_five {params batch : Type}
    (train_step : float → params → batch → params * float)
    (eval_loss : params → batch → float) (cfg : config)
    (training_dataloader : nat → list batch)
    (validation_dataloader testing_dataloader : list batch) (p : params) :
  (∀ epoch, training_dataloader epoch ≠ []) →
  validation_dataloader ≠ [] → testing_dataloader ≠ [] →
  (0 < decay_interval cfg)%Z →
  ∃ s, Training.train_model params batch train_step eval_loss cfg p
         training_dataloader validation_dataloader testing_dataloader = Ok s ∧
       map fst (Training.saved s) =
         map Training.checkpoint_name (Training.checkpoint_epochs (epochs cfg)) ∧
       (epochs cfg = 12 →
        map fst (Training.saved s) =
          ["stgcn_params/stgcn.params_4"; "stgcn_params/stgcn.params_9"]).
Proof.
  intros Ht Hv Hs Hd.
  destruct (epochs_Ok train_step eval_loss cfg training_dataloader
              validation_dataloader testing_dataloader Ht Hv Hs Hd p (epochs cfg))
    as (s & Hrun & _ & Hsaved & _).
  exists s. unfold Training.train_model, range. rewrite Nat2Z.id.
  split; [done|]. split; [done|].
  intros E. rewrite Hsaved, E. reflexivity.
Qed.

Lemma checkpoints_every_five_witness :
  ∃ s, Training.train_model nat unit toy_step toy_loss cfg3 0
         toy_train toy_eval toy_eval = Ok s ∧
       map fst (Training.saved s) =
         map Training.checkpoint_name (Training.checkpoint_epochs (epochs cfg3)) ∧
       (epochs cfg3 = 12 →
        map fst (Training.saved s) =
          ["stgcn_params/stgcn.params_4"; "stgcn_params/stgcn.params_9"]).
Proof.
  apply (checkpoints_every_five toy_step toy_loss cfg3 toy_train toy_eval toy_eval 0);
    [done|done|done|simpl; lia].
Defined.

(** C4 as stated fails: the twelve-epoch run does not leave files tagged 5
    and 10. *)
Lemma checkpoints_counterexample :
  ∃ s, Training.train_model nat unit toy_step toy_loss cfg3 0
         toy_train toy_eval toy_eval = Ok s ∧
       epochs cfg3 = 12 ∧
       map fst (Training.saved s) ≠ map Training.checkpoint_name [5; 10].
Proof.
  eexists. split; [vm_compute; reflexivity|]. split; [reflexivity|].
  vm_compute. discriminate.
Qed.

(** C5: with a positive interval, the learning rate is multiplied by
    [decay_rate] at the end of every [decay_interval]-th epoch: after the run
    it has been multiplied once per completed interval, and every optimizer
    step of an epoch ran at the rate left by the intervals completed before
    that epoch.  With the shipped settings the rate after 10 epochs is
    [0.01 * 0.7 * 0.7]. *)
Theorem learning_rate_decay {params batch : Type}
    (train_step : float → params → batch → params * float)
    (eval_loss : params → batch → float) (cfg : config)
    (training_dataloader : nat → list batch)
    (validation_dataloader testing_dataloader : list batch) (p : params) :
  (∀ epoch, training_dataloader epoch ≠ []) →
  validation_dataloader ≠ [] → testing_dataloader ≠ [] →
  (0 < decay_interval cfg)%Z →
  ∃ s, Training.train_model params batch train_step eval_loss cfg p
         training_dataloader validation_dataloader testing_dataloader = Ok s ∧
       Training.lr s = Training.decayed cfg (Training.decays cfg (epochs cfg)) ∧
       Training.steps s =
         flat_map (λ epoch, map (λ _, (epoch, Training.decayed cfg (Training.decays cfg epoch)))
                                (training_dataloader epoch)) (seq 0 (epochs cfg)) ∧
       (learning_rate cfg = 0.01%float → decay_rate cfg = 0.7%float →
        decay_interval cfg = 5%Z → epochs cfg = 10 →
        Training.lr s = (0.01 * 0.7 * 0.7)%float).
Proof.
  intros Ht Hv Hs Hd.
  destruct (epochs_Ok train_step eval_loss cfg training_dataloader
              validation_dataloader testing_dataloader Ht Hv Hs Hd p (epochs cfg))
    as (s & Hrun & Hlr & _ & Hsteps & _).
  exists s. unfold Training.train_model, range. rewrite Nat2Z.id.
  split; [done|]. split; [done|]. split; [done|].
  intros E1 E2 E3 E4. rewrite Hlr. unfold Training.decays, Training.decayed.
  rewrite E1, E2, E3, E4. reflexivity.
Qed.

Lemma learning_rate_decay_witness :
  ∃ s, Training.train_model nat unit toy_step toy_loss default_config 0
         toy_train toy_eval toy_eval = Ok s ∧
       Training.lr s = Training.decayed default_config 2 ∧
       Training.steps s =
         flat_map (λ epoch, map (λ _, (epoch, Training.decayed default_config
                                                (Training.decays default_config epoch)))
                                (toy_train epoch)) (seq 0 10) ∧
       (learning_rate default_config = 0.01%float → decay_rate default_config = 0.7%float →
        decay_interval default_config = 5%Z → epochs default_config = 10 →
        Training.lr s = (0.01 * 0.7 * 0.7)%float).
Proof.
  apply (learning_rate_decay toy_step toy_loss default_config toy_train toy_eval toy_eval 0);
    [done|done|done|simpl; lia].
Defined.

(** In binary64 the rate after two Training.decays is the product taken left to
    right; it is one unit in the last place below [0.01 * (0.7 * 0.7)]. *)
Example rate_after_two_decays :
  Training.decayed default_config 2 = 0.004899999999999999%float ∧
  (0.01 * (0.7 * 0.7))%float = 0.0049%float ∧
  Training.decayed default_config 2 = next_down 0.0049%float.
Proof. repeat split; vm_compute; reflexivity. Qed.

(** * The Chebyshev basis *)

Section ChebFacts.
Context {R : Type}.
Variables (zero one : R) (add sub mul : R → R → R).
Variable n : nat.
Variable L : list (list R).

Abbreviation next := (Cheb.cheb_next R zero one add sub mul n L).
Abbreviation from := (Cheb.cheb_from R zero one add sub mul n L).

Lemma length_cheb_from (k : nat) (T0 T1 : list (list R)) : length (from k T0 T1) = k.
Proof. revert T0 T1. induction k as [|k IH]; intros T0 T1; simpl; [done|]. by rewrite IH. Qed.

(** Every element from the third on is [next] of the two before it. *)
Lemma cheb_from_recurrence (m k : nat) (T0 T1 Tk : list (list R)) :
  (T0 :: T1 :: from m T0 T1) !! (S (S k)) = Some Tk →
  ∃ Ta Tb, (T0 :: T1 :: from m T0 T1) !! k = Some Ta ∧
           (T0 :: T1 :: from m T0 T1) !! (S k) = Some Tb ∧
           Tk = next Ta Tb.
Proof.
  revert k T0 T1. induction m as [|m IH]; intros k T0 T1; simpl; [done|].
  destruct k as [|k]; simpl.
  - intros [= <-]. eauto.
  - intros Hk. apply (IH k T1 (next T0 T1)) in Hk as (Ta & Tb & Ha & Hb & ->).
    exists Ta, Tb. done.
Qed.

Lemma length_cheb_polynomial (K : nat) :
  length (Cheb.cheb_polynomial R zero one add sub mul n L K) = K.
Proof.
  unfold Cheb.cheb_polynomial. rewrite length_take. simpl. rewrite length_cheb_from. lia.
Qed.

End ChebFacts.

(** C8: the basis [main.py] builds has [orders_of_cheb] elements; the first
    is the identity matrix, the second the scaled Laplacian, and every later
    one is [2 * L~ * T(k-1) - T(k-2)]. *)
Theorem cheb_basis {R : Type} (zero one : R) (add sub mul : R → R → R)
    (scaled_Laplacian : list (list R) → result (list (list R)))
    (nd_array : list (list R) → list (list R))
    (cfg : config) (A : list (list R)) (basis : list (list (list R))) :
  Cheb.cheb_polys R zero one add sub mul scaled_Laplacian nd_array cfg A = Ok basis →
  ∃ L_tilde Ts,
    scaled_Laplacian A = Ok L_tilde ∧
    basis = map nd_array Ts ∧
    length basis = orders_of_cheb cfg ∧
    length Ts = orders_of_cheb cfg ∧
    (1 ≤ orders_of_cheb cfg →
     Ts !! 0 = Some (Cheb.identity R zero one (num_of_vertices cfg))) ∧
    (2 ≤ orders_of_cheb cfg → Ts !! 1 = Some L_tilde) ∧
    ∀ k Tk, Ts !! (S (S k)) = Some Tk →
      ∃ Ta Tb, Ts !! k = Some Ta ∧ Ts !! (S k) = Some Tb ∧
        Tk = Cheb.msub R sub
               (Cheb.scale R mul (add one one)
                  (Cheb.matmul R zero add mul (num_of_vertices cfg) L_tilde Tb)) Ta.
Proof.
  unfold Cheb.cheb_polys. intros (L & HL & [= <-])%bind_Ok.
  set (K := orders_of_cheb cfg). set (n := num_of_vertices cfg).
  exists L, (Cheb.cheb_polynomial R zero one add sub mul n L K).
  split; [done|]. split; [done|].
  split; [by rewrite length_map, length_cheb_polynomial|].
  split; [apply length_cheb_polynomial|].
  unfold Cheb.cheb_polynomial.
  split; [|split].
  - intros HK. by rewrite lookup_take_lt by lia.
  - intros HK. by rewrite lookup_take_lt by lia.
  - intros k Tk [Hk HKk]%lookup_take_Some.
    apply cheb_from_recurrence in Hk as (Ta & Tb & Ha & Hb & ->).
    exists Ta, Tb. rewrite !lookup_take_lt by lia. done.
Qed.

Lemma cheb_basis_witness :
  ∃ basis,
    Cheb.cheb_polys Z 0%Z 1%Z Z.add Z.sub Z.mul Ok id cfg3 path3 = Ok basis ∧
    ∃ L_tilde Ts,
      Ok path3 = Ok L_tilde ∧
      basis = map id Ts ∧
      length basis = 3 ∧
      length Ts = 3 ∧
      (1 ≤ 3 → Ts !! 0 = Some (Cheb.identity Z 0%Z 1%Z 3)) ∧
      (2 ≤ 3 → Ts !! 1 = Some L_tilde) ∧
      ∀ k Tk, Ts !! (S (S k)) = Some Tk →
        ∃ Ta Tb, Ts !! k = Some Ta ∧ Ts !! (S k) = Some Tb ∧
          Tk = Cheb.msub Z Z.sub
                 (Cheb.scale Z Z.mul (1 + 1)%Z
                    (Cheb.matmul Z 0%Z Z.add Z.mul 3 L_tilde Tb)) Ta.
Proof.
  eexists. split; [reflexivity|].
  apply (cheb_basis 0%Z 1%Z Z.add Z.sub Z.mul Ok id cfg3 path3). reflexivity.
Defined.


(** * Further properties *)

(** ** The distance matrix and the kernel *)

(** * More on the adjacency matrix *)

Lemma for_each_cons {A S : Type} (body : S → A → result S) (x : A) (xs : list A) (acc : S) :
  for_each body (x :: xs) acc = body acc x ≫= for_each body xs.
Proof. reflexivity. Qed.

Lemma bind_Ok_l {A B : Type} (a : A) (f : A → result B) : Ok a ≫= f = f a.
Proof. reflexivity. Qed.

Lemma bind_Raise_l {A B : Type} (e : exn) (f : A → result B) : Raise e ≫= f = Raise e.
Proof. reflexivity. Qed.

Lemma cells_Ok (n : nat) (r : Graph.row) (xi yi : Z) (a b : nat) :
  row_indices r = Ok (xi, yi) → np_index n xi = Ok a → np_index n yi = Ok b →
  cells n r = [(a, b); (b, a)].
Proof. intros Hr Ha Hb. unfold cells. by rewrite Hr, Ha, Hb. Qed.

Lemma put_distance_get (n : nat) (A A' : list (list float)) (r : Graph.row) (i j : nat) :
  put_distance n A r = Ok A' → square n A →
  get2 A' i j =
  if bool_decide ((i, j) ∈ cells n r) then Some r.2 else get2 A i j.
Proof.
  destruct r as [[x y] dis]. intros Hput Hsq.
  destruct (bool_decide_reflect ((i, j) ∈ cells n (x, y, dis))) as [Hin|Hout].
  - apply put_distance_Ok in Hput as (xi & yi & a & b & Hx & Hy & Ha & Hb & ->).
    rewrite (get2_put n) by eauto using np_index_Ok.
    rewrite (cells_Ok n (x, y, dis) xi yi a b) in Hin
      by (try done; apply row_indices_Ok; done).
    rewrite decide_True; [done|].
    apply elem_of_cons in Hin as [[= -> ->]|Hin]; [tauto|].
    apply elem_of_cons in Hin as [[= -> ->]|Hin]; [tauto|].
    by apply elem_of_nil in Hin.
  - by apply (put_distance_other n A A' (x, y, dis)).
Qed.

Lemma fill_last_distance (n : nat) (distance : list Graph.row) (A D : list (list float))
    (i j : nat) (a0 : float) :
  for_each (put_distance n) distance A = Ok D → square n A →
  get2 A i j = Some a0 →
  get2 D i j =
  Some (fold_left (λ acc r, if bool_decide ((i, j) ∈ cells n r) then r.2 else acc)
                  distance a0).
Proof.
  revert A a0. induction distance as [|r rows IH]; intros A a0; simpl.
  - by intros [= <-].
  - intros (A1 & H1 & H)%bind_Ok Hsq Ha0.
    apply (IH A1); [done|by eapply put_distance_square|].
    rewrite (put_distance_get n A A1 r) by done.
    by destruct (bool_decide _).
Qed.

(** X1: each cell of the assembled distance matrix holds the distance of the
    last row that names its pair of vertices, in either order and with negative
    indices counted from the end; a cell no row names holds 0. *)
Theorem distance_matrix_last_row (n : nat) (distance : list Graph.row)
    (D : list (list float)) (i j : nat) :
  distance_matrix n distance = Ok D → i < n → j < n →
  get2 D i j = Some (last_distance n distance i j).
Proof.
  intros HD Hi Hj. unfold last_distance.
  apply (fill_last_distance n distance (np_zeros n n)); [done|apply square_zeros|].
  by apply get2_zeros.
Qed.

Lemma distance_matrix_last_row_witness :
  distance_matrix 3 distance_rewritten = Ok D_rewritten ∧ 0 < 3 ∧ 1 < 3 ∧
  get2 D_rewritten 0 1 = Some (last_distance 3 distance_rewritten 0 1) ∧
  last_distance 3 distance_rewritten 0 1 = 5%float.
Proof.
  split; [vm_compute; reflexivity|]. split; [lia|]. split; [lia|].
  split; [|vm_compute; reflexivity].
  apply (distance_matrix_last_row 3 distance_rewritten D_rewritten 0 1);
    [vm_compute; reflexivity|lia|lia].
Defined.

(** Two square matrices with the same cells are equal. *)
Lemma square_ext (n : nat) (A B : list (list float)) :
  square n A → square n B → (∀ i j, get2 A i j = get2 B i j) → A = B.
Proof.
  intros [HlA HrA] [HlB HrB] Hcell. apply list_eq. intros i.
  destruct (decide (i < n)) as [Hi|Hi].
  - destruct (lookup_lt_is_Some_2 A i) as [ra Hra]; [lia|].
    destruct (lookup_lt_is_Some_2 B i) as [rb Hrb]; [lia|].
    rewrite Hra, Hrb. f_equal. apply list_eq. intros j.
    specialize (Hcell i j). unfold get2 in Hcell. by rewrite Hra, Hrb in Hcell.
  - rewrite !lookup_ge_None_2 by lia. done.
Qed.

Lemma unassigned_swap (n : nat) (distance : list Graph.row) (i j : nat) :
  unassigned n distance i j → unassigned n distance j i.
Proof.
  unfold unassigned. intros Hun. eapply Forall_impl; [exact Hun|].
  intros r Hr Hin. apply Hr. simpl in *.
  unfold cells in *. destruct (row_indices r) as [[xi yi]|]; [|by apply elem_of_nil in Hin].
  destruct (np_index n xi) as [a|]; [|by apply elem_of_nil in Hin].
  destruct (np_index n yi) as [b|]; [|by apply elem_of_nil in Hin].
  apply elem_of_cons in Hin as [[= -> ->]|Hin]; [right; left|].
  apply elem_of_cons in Hin as [[= -> ->]|Hin]; [left|].
  by apply elem_of_nil in Hin.
Qed.

(** Storing 0 in cells that hold 0 changes nothing. *)
Lemma put_zero_id (n : nat) (A : list (list float)) (x y : float) (xi yi : Z) (a b : nat) :
  square n A → Py.int x = Ok xi → Py.int y = Ok yi →
  np_index n xi = Ok a → np_index n yi = Ok b →
  get2 A a b = Some 0%float → get2 A b a = Some 0%float →
  put_distance n A (x, y, 0%float) = Ok A.
Proof.
  intros Hsq Hx Hy Ha Hb Hab Hba.
  apply put_distance_Ok. exists xi, yi, a, b. do 4 (split; [done|]).
  apply (square_ext n); [done|auto using square_alter|].
  intros i j. rewrite (get2_put n) by eauto using np_index_Ok.
  case_decide as Hc; [|done]. by destruct Hc as [[-> ->]|[-> ->]].
Qed.

(** X2: a row of distance 0 between two vertices that no earlier row names is
    the same as no row: [data_preprocess] cannot tell an edge of length zero
    from a missing edge. *)
Theorem zero_distance_is_no_edge (np_exp : float → float) (cfg : config)
    (junk : nat → nat → nat → float) (before after : list Graph.row)
    (x y : float) (xi yi : Z) (a b : nat) (data : Signal.signal_file) :
  row_indices (x, y, 0%float) = Ok (xi, yi) →
  np_index (num_of_vertices cfg) xi = Ok a →
  np_index (num_of_vertices cfg) yi = Ok b →
  unassigned (num_of_vertices cfg) before a b →
  data_preprocess np_exp cfg junk (before ++ (x, y, 0%float) :: after) data =
  data_preprocess np_exp cfg junk (before ++ after) data.
Proof.
  intros [Hx Hy]%row_indices_Ok Ha Hb Hun. simpl in Hx, Hy.
  unfold data_preprocess, adjacency, distance_matrix.
  set (n := num_of_vertices cfg) in *.
  rewrite !for_each_app.
  destruct (for_each (put_distance n) before (np_zeros n n)) as [A1|e] eqn:E1; [|done].
  rewrite !bind_Ok_l, for_each_cons.
  destruct (fill_invariant n before _ A1 E1 (square_zeros n) (symmetric_zeros n))
    as [Hsq _].
  pose proof (np_index_Ok _ _ _ Ha) as Han. pose proof (np_index_Ok _ _ _ Hb) as Hbn.
  rewrite (put_zero_id n A1 x y xi yi a b); try done.
  - rewrite (fill_unassigned n before _ A1 a b E1 (square_zeros n) Hun).
    by apply get2_zeros.
  - rewrite (fill_unassigned n before _ A1 b a E1 (square_zeros n)
               (unassigned_swap _ _ _ _ Hun)).
    by apply get2_zeros.
Qed.

Lemma zero_distance_is_no_edge_witness :
  row_indices (0, 2, 0)%float = Ok (0, 2)%Z ∧
  np_index 3 0 = Ok 0 ∧ np_index 3 2 = Ok 2 ∧
  unassigned 3 [(0, 1, 1)%float] 0 2 ∧
  data_preprocess exp_series cfg3 junk0 ([(0, 1, 1)] ++ (0, 2, 0) :: [(1, 2, 3)])%float data3 =
  data_preprocess exp_series cfg3 junk0 ([(0, 1, 1)] ++ [(1, 2, 3)])%float data3.
Proof.
  assert (unassigned 3 [(0, 1, 1)%float] 0 2) as Hun.
  { apply (bool_decide_unpack _). vm_compute. exact I. }
  do 3 (split; [vm_compute; reflexivity|]). split; [exact Hun|].
  apply (zero_distance_is_no_edge exp_series cfg3 junk0 [(0, 1, 1)%float]
           [(1, 2, 3)%float] 0 2 0 2 0 2 data3); try (vm_compute; reflexivity).
  exact Hun.
Defined.

(** X3: after [A[A < epsilon] = 0] no cell is left below [epsilon] except the
    cells that are exactly 0: every cell of the returned matrix is 0 or
    fails the test [a < epsilon]. *)
Theorem adjacency_sparsified (np_exp : float → float) (cfg : config)
    (junk : nat → nat → nat → float) (distance : list Graph.row)
    (data : Signal.signal_file) (A : list (list float)) (X : ndarray3 float)
    (i j : nat) (a : float) :
  data_preprocess np_exp cfg junk distance data = Ok (A, X) →
  get2 A i j = Some a →
  a = 0%float ∨ (a <? epsilon cfg)%float = false.
Proof.
  intros H Ha.
  destruct (kernel_cells _ _ _ _ _ _ _ H) as (D & _ & _ & _ & Hcell).
  rewrite Hcell in Ha. destruct (get2 D i j) as [d|]; [|discriminate].
  injection Ha as <-. unfold threshold.
  destruct (_ <? _)%float eqn:E; [by left|by right].
Qed.

Lemma adjacency_sparsified_witness :
  data_preprocess exp_series cfg3 junk0 distance3 data3 = Ok (A3, X3) ∧
  get2 A3 0 1 = Some 0%float ∧
  (0%float = 0%float ∨ (0 <? epsilon cfg3)%float = false).
Proof.
  do 2 (split; [vm_compute; reflexivity|]).
  apply (adjacency_sparsified exp_series cfg3 junk0 distance3 data3 A3 X3 0 1 0%float);
    vm_compute; reflexivity.
Defined.





(** ** The signal file *)

(** * The graph signal matrix *)

Lemma length_broadcast (n : nat) (l r : list float) :
  Signal.broadcast n l = Ok r → length r = n.
Proof.
  unfold Signal.broadcast. case_decide as Hl; [by intros [= <-]|].
  destruct l as [|a [|??]]; try discriminate. intros [= <-]. apply length_replicate.
Qed.


Lemma np_index_nonneg (n : nat) (c : Z) :
  (0 <= c)%Z →
  np_index n c = if decide (c < Z.of_nat n)%Z then Ok (Z.to_nat c) else Raise IndexError.
Proof.
  intros Hc. unfold np_index.
  destruct (Z.leb_spec 0 c); [|lia].
  destruct (Z.ltb_spec c (Z.of_nat n)); simpl.
  - by rewrite decide_True.
  - rewrite decide_False by lia.
    destruct (Z.leb_spec (- Z.of_nat n) c); [|done].
    destruct (Z.ltb_spec c 0); [lia|done].
Qed.


(** One pass of the loop over the vertices, when it returns. *)
Lemma load_vertex_Ok (data : Signal.signal_file) (X X' : ndarray3 float)
    (V F T i : nat) :
  shape3 X = (V, F, T) →
  Signal.load_vertex data X i = Ok X' ↔
  ∃ flow occupy speed fl oc sp,
    vertex_series data i flow occupy speed ∧ 3 ≤ F ∧
    Signal.broadcast T flow = Ok fl ∧ Signal.broadcast T occupy = Ok oc ∧
    Signal.broadcast T speed = Ok sp ∧
    X' = Nd3 (V, F, T) (alter (stored fl oc sp) i (items3 X)).
Proof.
  intros Hs. unfold Signal.load_vertex, Signal.set_series, vertex_series. split.
  - intros H.
    apply bind_Ok in H as (d & Hd & H).
    apply bind_Ok in H as (flow & Hflow & H).
    apply bind_Ok in H as (X1 & H1 & H).
    apply bind_Ok in H as (occupy & Hocc & H).
    apply bind_Ok in H as (X2 & H2 & H).
    apply bind_Ok in H as (speed & Hsp & H).
    rewrite Hs in H1.
    apply bind_Ok in H1 as (c0 & Hc0 & H1). apply bind_Ok in H1 as (fl & Hfl & H1).
    injection H1 as <-. simpl in *.
    apply bind_Ok in H2 as (c1 & Hc1 & H2). apply bind_Ok in H2 as (oc & Hoc & H2).
    injection H2 as <-. simpl in *.
    apply bind_Ok in H as (c2 & Hc2 & H). apply bind_Ok in H as (sp & Hspb & H).
    injection H as <-. simpl.
    assert (3 ≤ F) as HF.
    { rewrite np_index_nonneg in Hc2 by lia.
      destruct (decide (2 < Z.of_nat F)%Z); [lia|discriminate]. }
    rewrite np_index_nonneg, decide_True in Hc0 by lia.
    rewrite np_index_nonneg, decide_True in Hc1 by lia.
    rewrite np_index_nonneg, decide_True in Hc2 by lia.
    injection Hc0 as <-. injection Hc1 as <-. injection Hc2 as <-.
    exists flow, occupy, speed, fl, oc, sp.
    split; [eauto 10|]. do 4 (split; [done|]).
    f_equal. rewrite !list_alter_alter_eq. done.
  - intros (flow & occupy & speed & fl & oc & sp & (d & Hd & Hflow & Hocc & Hsp)
            & HF & Hfl & Hoc & Hspb & ->).
    rewrite Hd. simpl. rewrite Hflow. simpl. rewrite Hs.
    rewrite np_index_nonneg, decide_True by lia. simpl. rewrite Hfl. simpl.
    rewrite Hocc. simpl. rewrite ?Hs.
    rewrite np_index_nonneg, decide_True by lia. simpl. rewrite Hoc. simpl.
    rewrite Hsp. simpl. rewrite ?Hs.
    rewrite np_index_nonneg, decide_True by lia. simpl. rewrite Hspb. simpl.
    f_equal. f_equal. rewrite !list_alter_alter_eq. done.
Qed.

(** The loop over a list of distinct vertices: each listed vertex gets its
    three series, the other rows stay as they were. *)
Lemma load_vertices_Ok (data : Signal.signal_file) (V F T : nat) (l : list nat)
    (X X' : ndarray3 float) :
  shape3 X = (V, F, T) → NoDup l →
  for_each (Signal.load_vertex data) l X = Ok X' →
  shape3 X' = (V, F, T) ∧
  (l ≠ [] → 3 ≤ F) ∧
  (∀ i, i ∉ l → items3 X' !! i = items3 X !! i) ∧
  ∀ i, i ∈ l →
    ∃ flow occupy speed fl oc sp,
      vertex_series data i flow occupy speed ∧
      Signal.broadcast T flow = Ok fl ∧ Signal.broadcast T occupy = Ok oc ∧
      Signal.broadcast T speed = Ok sp ∧
      items3 X' !! i = stored fl oc sp <$> items3 X !! i.
Proof.
  intros Hs Hnd. revert X Hs. induction Hnd as [|x l Hx Hnd IH]; intros X Hs.
  - intros [= <-]. split; [done|]. split; [done|]. split; [done|].
    intros i Hi. by apply elem_of_nil in Hi.
  - rewrite for_each_cons. intros (X1 & H1 & H)%bind_Ok.
    apply (load_vertex_Ok data X X1 V F T x Hs) in H1
      as (flow & occupy & speed & fl & oc & sp & Hser & HF & Hfl & Hoc & Hsp & ->).
    destruct (IH (Nd3 (V, F, T) (alter (stored fl oc sp) x (items3 X))) eq_refl H)
      as (Hs' & _ & Hother & Hin).
    split; [done|]. split; [done|]. split.
    + intros i Hi. apply not_elem_of_cons in Hi as [Hne Hi].
      rewrite (Hother i Hi). simpl. by rewrite list_lookup_alter_ne.
    + intros i Hi. apply elem_of_cons in Hi as [->|Hi].
      * exists flow, occupy, speed, fl, oc, sp. do 4 (split; [done|]).
        rewrite (Hother x Hx). simpl. by rewrite list_lookup_alter_eq.
      * destruct (Hin i Hi) as (flow' & occupy' & speed' & fl' & oc' & sp' & ? & ? & ? & ? & Hi').
        exists flow', occupy', speed', fl', oc', sp'. do 4 (split; [done|]).
        rewrite Hi'. simpl. rewrite list_lookup_alter_ne; [done|].
        intros ->. done.
Qed.

Lemma lookup_np_empty (junk : nat → nat → nat → float) (a b c i : nat) :
  i < a →
  items3 (Signal.np_empty junk a b c) !! i =
  Some (map (λ j, map (junk i j) (seq 0 c)) (seq 0 b)).
Proof. intros Hi. simpl. by rewrite list_lookup_fmap, lookup_seq_lt. Qed.

Lemma graph_signal_Ok_inv (cfg : config) (junk : nat → nat → nat → float)
    (data : Signal.signal_file) (X : ndarray3 float) :
  Signal.graph_signal cfg junk data = Ok X →
  ∃ v0 s0, Signal.first data = Ok v0 ∧ Signal.first v0.2 = Ok s0 ∧
    for_each (Signal.load_vertex data) (seq 0 (num_of_vertices cfg))
      (Signal.np_empty junk (num_of_vertices cfg) (length v0.2) (length s0.2)) = Ok X.
Proof.
  unfold Signal.graph_signal, range. rewrite Nat2Z.id.
  intros (v0 & Hv0 & (s0 & Hs0 & H)%bind_Ok)%bind_Ok. eauto.
Qed.

(** X5: when [data_preprocess] gets past the signal file, the array has one
    row per vertex, as many channels as the first entry of the file has
    signals and as many time steps as that entry's first signal; channels 0,
    1 and 2 of vertex [i] are the file's [flow], [occupy] and [speed] series
    of vertex [i] (a one-element series repeated along the time axis), and a
    channel past the third keeps what [np.empty] left there. *)
Theorem graph_signal_contents (cfg : config) (junk : nat → nat → nat → float)
    (data : Signal.signal_file) (X : ndarray3 float) :
  Signal.graph_signal cfg junk data = Ok X →
  ∃ v0 s0,
    Signal.first data = Ok v0 ∧ Signal.first v0.2 = Ok s0 ∧
    shape3 X = (num_of_vertices cfg, length v0.2, length s0.2) ∧
    wf3 X ∧
    (1 ≤ num_of_vertices cfg → 3 ≤ length v0.2) ∧
    ∀ i, i < num_of_vertices cfg →
      ∃ flow occupy speed fl oc sp,
        vertex_series data i flow occupy speed ∧
        Signal.broadcast (length s0.2) flow = Ok fl ∧
        Signal.broadcast (length s0.2) occupy = Ok oc ∧
        Signal.broadcast (length s0.2) speed = Ok sp ∧
        ∀ t, at3 X i 0 t = fl !! t ∧ at3 X i 1 t = oc !! t ∧ at3 X i 2 t = sp !! t ∧
             ∀ c, 3 ≤ c → c < length v0.2 → t < length s0.2 →
                  at3 X i c t = Some (junk i c t).
Proof.
  intros (v0 & s0 & Hv0 & Hs0 & Hloop)%graph_signal_Ok_inv.
  set (V := num_of_vertices cfg) in *. set (F := length v0.2) in *.
  set (T := length s0.2) in *.
  destruct (load_vertices_Ok data V F T (seq 0 V) (Signal.np_empty junk V F T) X eq_refl
              (NoDup_seq 0 V) Hloop)
    as (Hs & HF & _ & Hin).
  exists v0, s0. do 3 (split; [done|]).
  assert (∀ i, i < V → ∃ flow occupy speed fl oc sp,
            vertex_series data i flow occupy speed ∧
            Signal.broadcast T flow = Ok fl ∧ Signal.broadcast T occupy = Ok oc ∧
            Signal.broadcast T speed = Ok sp ∧ 3 ≤ F ∧
            items3 X !! i =
              Some (stored fl oc sp (map (λ j, map (junk i j) (seq 0 T)) (seq 0 F)))) as Hrow.
  { intros i Hi. destruct (Hin i) as (flow & occupy & speed & fl & oc & sp & ? & ? & ? & ? & Hrow).
    { apply elem_of_seq. lia. }
    exists flow, occupy, speed, fl, oc, sp. do 4 (split; [done|]).
    split; [apply HF; destruct V; [lia|done]|].
    by rewrite Hrow, lookup_np_empty. }
  split; [|split].
  - unfold wf3. rewrite Hs. split.
    + apply Nat.le_antisymm.
      * apply Nat.nlt_ge. intros Hlt.
        destruct (lookup_lt_is_Some_2 (items3 X) V) as [m Hm]; [lia|].
        destruct (load_vertices_Ok data V F T (seq 0 V) (Signal.np_empty junk V F T) X eq_refl
              (NoDup_seq 0 V) Hloop)
          as (_ & _ & Hother & _).
        rewrite Hother in Hm by (rewrite elem_of_seq; lia).
        apply lookup_lt_Some in Hm. simpl in Hm. rewrite length_map, length_seq in Hm. lia.
      * apply Nat.nlt_ge. intros Hlt.
        destruct (Hrow (length (items3 X))) as (?&?&?&?&?&?&_&_&_&_&_&Hm); [lia|].
        apply lookup_lt_Some in Hm. lia.
    + apply Forall_lookup_2. intros i m Hm.
      destruct (decide (i < V)) as [Hi|Hi].
      * destruct (Hrow i Hi) as (flow & occupy & speed & fl & oc & sp & _ & Hfl & Hoc & Hsp & HF3 & Hm').
        rewrite Hm in Hm'. injection Hm' as ->. unfold stored. split.
        { by rewrite !length_insert, length_map, length_seq. }
        apply Forall_insert; [|by eapply length_broadcast].
        apply Forall_insert; [|by eapply length_broadcast].
        apply Forall_insert; [|by eapply length_broadcast].
        apply Forall_fmap, Forall_forall. intros j _. simpl.
        by rewrite length_map, length_seq.
      * destruct (load_vertices_Ok data V F T (seq 0 V) (Signal.np_empty junk V F T) X eq_refl
              (NoDup_seq 0 V) Hloop)
          as (_ & _ & Hother & _).
        rewrite Hother in Hm by (rewrite elem_of_seq; lia).
        apply lookup_lt_Some in Hm. simpl in Hm. rewrite length_map, length_seq in Hm. lia.
  - intros HV. destruct (Hrow 0) as (?&?&?&?&?&?&_&_&_&_&HF3&_); [lia|done].
  - intros i Hi.
    destruct (Hrow i Hi) as (flow & occupy & speed & fl & oc & sp & Hser & Hfl & Hoc & Hsp & HF3 & Hm).
    exists flow, occupy, speed, fl, oc, sp. do 4 (split; [done|]).
    intros t. unfold at3. rewrite Hm. simpl. unfold stored.
    split; [|split; [|split]].
    + rewrite list_lookup_insert_ne, list_lookup_insert_ne by lia.
      rewrite list_lookup_insert_eq by (rewrite length_map, length_seq; lia). done.
    + rewrite list_lookup_insert_ne by lia.
      rewrite list_lookup_insert_eq
        by (rewrite length_insert, length_map, length_seq; lia). done.
    + rewrite list_lookup_insert_eq
        by (rewrite !length_insert, length_map, length_seq; lia). done.
    + intros c Hc3 HcF Ht.
      rewrite !list_lookup_insert_ne by lia.
      rewrite list_lookup_fmap, lookup_seq_lt by lia. simpl.
      by rewrite list_lookup_fmap, lookup_seq_lt.
Qed.

Lemma graph_signal_contents_witness :
  ∃ X, Signal.graph_signal cfg3 junk0 data3 = Ok X ∧
  ∃ v0 s0,
    Signal.first data3 = Ok v0 ∧ Signal.first v0.2 = Ok s0 ∧
    shape3 X = (num_of_vertices cfg3, length v0.2, length s0.2) ∧
    wf3 X ∧
    (1 ≤ num_of_vertices cfg3 → 3 ≤ length v0.2) ∧
    ∀ i, i < num_of_vertices cfg3 →
      ∃ flow occupy speed fl oc sp,
        vertex_series data3 i flow occupy speed ∧
        Signal.broadcast (length s0.2) flow = Ok fl ∧
        Signal.broadcast (length s0.2) occupy = Ok oc ∧
        Signal.broadcast (length s0.2) speed = Ok sp ∧
        ∀ t, at3 X i 0 t = fl !! t ∧ at3 X i 1 t = oc !! t ∧ at3 X i 2 t = sp !! t ∧
             ∀ c, 3 ≤ c → c < length v0.2 → t < length s0.2 →
                  at3 X i c t = Some (junk0 i c t).
Proof.
  exists X3. split; [vm_compute; reflexivity|].
  apply (graph_signal_contents cfg3 junk0 data3 X3). vm_compute; reflexivity.
Defined.





(** ** Windows and reshaping *)

(** * More on the windows *)

Section MoreWindows.
Context {A : Type}.
Implicit Types X : ndarray3 A.

(** A signal shorter than one window leaves nothing to concatenate. *)
Lemma build_dataset_short (cfg : config) X (V F T : nat) :
  shape3 X = (V, F, T) →
  T < num_points_for_train cfg + num_points_for_predict cfg →
  Windows.build_dataset cfg X = Raise ValueError.
Proof.
  intros Hs HT. unfold Windows.build_dataset, Windows.indices, range. rewrite Hs. simpl.
  replace (Z.to_nat _) with 0 by lia. done.
Qed.

(** X7: [build_dataset] returns exactly when the signal has a channel to
    predict and room for one window; a signal shorter than one window raises
    [ValueError] (nothing to concatenate), and one that is long enough but has
    no channel raises [IndexError]. *)
Theorem build_dataset_returns (cfg : config) X (V F T : nat) :
  wf3 X → shape3 X = (V, F, T) →
  let span := num_points_for_train cfg + num_points_for_predict cfg in
  ((∃ r, Windows.build_dataset cfg X = Ok r) ↔ 1 ≤ F ∧ span ≤ T) ∧
  (T < span → Windows.build_dataset cfg X = Raise ValueError) ∧
  (span ≤ T → F = 0 → Windows.build_dataset cfg X = Raise IndexError).
Proof.
  intros Hwf Hs span. split; [split|split].
  - intros [[features target] Hr]. by apply (build_dataset_Ok_inv cfg X V F T features target).
  - intros [HF HT]. eexists. by apply (build_dataset_Ok cfg X V F T).
  - intros HT. by apply (build_dataset_short cfg X V F T).
  - intros HT ->. unfold Windows.build_dataset, Windows.indices, range. rewrite Hs. simpl.
    fold span. replace (Z.to_nat _) with (S (T - span)) by lia. simpl.
    unfold take_channel. by rewrite Hs.
Qed.

(** The cells of what [build_dataset] returns, read in the signal. *)
Lemma build_dataset_cells (cfg : config) X (V F T : nat)
    (features : ndarray4 A) (target : ndarray3 A) :
  wf3 X → shape3 X = (V, F, T) →
  Windows.build_dataset cfg X = Ok (features, target) →
  let H := num_points_for_train cfg in
  let P := num_points_for_predict cfg in
  ∀ i, i < T - (H + P) + 1 →
    i + H + P ≤ T ∧
    (∀ f v h, f < F → v < V → h < H → at4 features i f v h = at3 X v f (i + h)) ∧
    (∀ v p, v < V → p < P → at3 target i v p = at3 X v 0 (i + H + p)).
Proof.
  intros Hwf Hs Hb H P.
  destruct (windows_of_slice cfg X X V F T 0 T features target Hwf Hs) as (_ & _ & Hw);
    [done|done|]. exact Hw.
Qed.

(** X8: the windows slide by one step.  Sample [i + 1] holds at position [h]
    what sample [i] holds at position [h + 1]; and the target of sample [i]
    is a reading that a later sample holds as the newest entry of its first
    channel, so targets are raw readings of the signal. *)
Theorem windows_slide (cfg : config) X (V F T : nat)
    (features : ndarray4 A) (target : ndarray3 A) :
  wf3 X → shape3 X = (V, F, T) →
  Windows.build_dataset cfg X = Ok (features, target) →
  let H := num_points_for_train cfg in
  let P := num_points_for_predict cfg in
  let N := T - (H + P) + 1 in
  (∀ i f v h, S i < N → f < F → v < V → S h < H →
     at4 features (S i) f v h = at4 features i f v (S h)) ∧
  (∀ i v p, i + p + 1 < N → v < V → p < P → 1 ≤ H →
     at3 target i v p = at4 features (i + p + 1) 0 v (H - 1)).
Proof.
  intros Hwf Hs Hb H P N.
  pose proof (build_dataset_cells cfg X V F T features target Hwf Hs Hb) as Hc.
  destruct (build_dataset_Ok_inv cfg X V F T features target Hs Hb) as [HF HT].
  split.
  - intros i f v h Hi Hf Hv Hh.
    destruct (Hc (S i) Hi) as (_ & Hf1 & _). destruct (Hc i ltac:(fold H P N; lia)) as (_ & Hf0 & _).
    rewrite Hf1, Hf0 by (try done; fold H; lia). f_equal. lia.
  - intros i v p Hi Hv Hp HH.
    destruct (Hc i ltac:(fold H P N; lia)) as (_ & _ & Ht).
    destruct (Hc (i + p + 1) Hi) as (_ & Hf1 & _).
    rewrite Ht, Hf1 by (try done; fold H; lia). f_equal. fold H. lia.
Qed.

End MoreWindows.

Lemma build_dataset_returns_witness :
  wf3 X3 ∧ shape3 X3 = (3, 3, 6) ∧
  ((∃ r, Windows.build_dataset cfg3 X3 = Ok r) ↔ 1 ≤ 3 ∧ 2 + 1 ≤ 6) ∧
  (6 < 2 + 1 → Windows.build_dataset cfg3 X3 = Raise ValueError) ∧
  (2 + 1 ≤ 6 → 3 = 0 → Windows.build_dataset cfg3 X3 = Raise IndexError).
Proof.
  split; [exact wf3_X3|]. split; [reflexivity|].
  apply (build_dataset_returns cfg3 X3 3 3 6 wf3_X3). reflexivity.
Defined.

Lemma windows_slide_witness :
  ∃ features target,
    Windows.build_dataset cfg3 X3 = Ok (features, target) ∧
    (∀ i f v h, S i < 4 → f < 3 → v < 3 → S h < 2 →
       at4 features (S i) f v h = at4 features i f v (S h)) ∧
    (∀ i v p, i + p + 1 < 4 → v < 3 → p < 1 → 1 ≤ 2 →
       at3 target i v p = at4 features (i + p + 1) 0 v (2 - 1)).
Proof.
  destruct (Windows.build_dataset cfg3 X3) as [[features target]|e] eqn:E;
    [|vm_compute in E; discriminate E].
  exists features, target. split; [reflexivity|].
  apply (windows_slide cfg3 X3 3 3 6 features target wf3_X3); [reflexivity|exact E].
Defined.

(** * Reshaping to rows and back *)

Lemma chunks_S {B : Type} (n k : nat) (l : list B) :
  chunks (S n) k l = take k l :: chunks n k (drop k l).
Proof.
  unfold chunks. simpl. f_equal.
  rewrite <- fmap_S_seq, <- list_fmap_compose. apply list_fmap_ext.
  intros _ i _. simpl. by rewrite drop_drop.
Qed.

(** Cutting the concatenation of [n] rows of length [k] gives the rows back. *)
Lemma chunks_concat {B : Type} (n k : nat) (l : list (list B)) :
  length l = n → Forall (λ r, length r = k) l → chunks n k (concat l) = l.
Proof.
  intros <- Hall. induction Hall as [|r l Hr Hall IH]; [done|].
  simpl. rewrite chunks_S. rewrite take_app_length' by done.
  rewrite drop_app_length' by done. by rewrite IH.
Qed.

Lemma length_concat_rows {B : Type} (k : nat) (l : list (list B)) :
  Forall (λ r, length r = k) l → length (concat l) = length l * k.
Proof. induction 1 as [|r l Hr Hall IH]; [done|]. simpl. rewrite length_app. lia. Qed.

(** X9: [reshape(N, -1)] followed by [reshape(N, F, V, H)] is the identity on
    a well-formed array with at least one sample, so whatever the scaler
    leaves unchanged reaches the network unchanged and in place. *)
Theorem reshape_round_trip {A : Type} (X : ndarray4 A) (a b c d : nat) :
  wf4 X → shape4 X = (a, b, c, d) → a ≠ 0 →
  ∃ M, reshape_rows X = Ok M ∧ shape2 M = (a, b * c * d) ∧ wf2 M ∧
       reshape4 M a b c d = Ok X.
Proof.
  intros Hwf Hs Ha. unfold wf4 in Hwf. rewrite Hs in Hwf. destruct Hwf as [Hl Hall].
  destruct X as [sh items]. simpl in *. subst sh.
  unfold reshape_rows. simpl. rewrite decide_False by done.
  eexists. split; [reflexivity|]. split; [reflexivity|].
  assert (∀ s, s ∈ items →
            length s = b ∧ Forall (λ m, length m = c ∧ rows_of d m) s) as Hs'.
  { intros s Hin. by eapply Forall_forall in Hall. }
  assert (∀ s, s ∈ items → length (concat (map (λ m, concat m) s)) = b * c * d) as Hlen.
  { intros s Hin. destruct (Hs' s Hin) as [Hb Hm].
    rewrite (length_concat_rows (c * d)).
    - rewrite length_map, Hb. lia.
    - apply Forall_fmap. eapply Forall_impl; [exact Hm|].
      intros m [Hc Hd]. simpl. rewrite (length_concat_rows d) by done. by rewrite Hc. }
  split.
  - unfold wf2. simpl. split; [by rewrite length_map|].
    apply Forall_fmap, Forall_forall. intros s Hin. simpl. by apply Hlen.
  - unfold reshape4. simpl. rewrite decide_True by lia. do 2 f_equal.
    rewrite chunks_concat.
    + rewrite <- list_fmap_compose.
      rewrite <- (list_fmap_id items) at 2. apply list_fmap_ext.
      intros _ s Hin%list_elem_of_lookup_2. simpl.
      destruct (Hs' s Hin) as [Hb Hm].
      rewrite chunks_concat.
      * rewrite <- list_fmap_compose.
        rewrite <- (list_fmap_id s) at 2. apply list_fmap_ext.
        intros _ m Hinm%list_elem_of_lookup_2. simpl.
        eapply Forall_forall in Hm; [|exact Hinm]. destruct Hm as [Hc Hd].
        by apply chunks_concat.
      * by rewrite length_map.
      * apply Forall_fmap. eapply Forall_impl; [exact Hm|].
        intros m [Hc Hd]. simpl. rewrite (length_concat_rows d) by done. by rewrite Hc.
    + by rewrite length_map.
    + apply Forall_fmap, Forall_forall. intros s Hin. simpl.
      rewrite Hlen by done. lia.
Qed.

Lemma reshape_round_trip_witness :
  wf4 samples2 ∧ shape4 samples2 = (2, 1, 2, 2) ∧ 2 ≠ 0 ∧
  ∃ M, reshape_rows samples2 = Ok M ∧ shape2 M = (2, 1 * 2 * 2) ∧ wf2 M ∧
       reshape4 M 2 1 2 2 = Ok samples2.
Proof.
  assert (wf4 samples2) as Hwf.
  { split; [reflexivity|]. repeat constructor. }
  split; [exact Hwf|]. split; [reflexivity|]. split; [lia|].
  apply (reshape_round_trip samples2 2 1 2 2 Hwf); [reflexivity|lia].
Defined.

(** * More on the script *)

Lemma reshape4_shape {A : Type} (M : ndarray2 A) (a b c d : nat) (R : ndarray4 A) :
  reshape4 M a b c d = Ok R → shape4 R = (a, b, c, d).
Proof.
  unfold reshape4. destruct (shape2 M) as [r w]. case_decide; [|discriminate].
  by intros [= <-].
Qed.

Section MoreScript.
Context {S : Type} `{Pipeline.Scaler S}.

Lemma scaled_shape (cfg : config) (nf : nat)
    (f : ndarray2 float → result (ndarray2 float)) (data R : ndarray4 float) :
  Pipeline.scaled cfg nf f data = Ok R →
  shape4 R = ((shape4 data).1.1.1, nf, num_of_vertices cfg, num_points_for_train cfg).
Proof.
  unfold Pipeline.scaled.
  intros (flat & _ & (out & _ & HR)%bind_Ok)%bind_Ok.
  by apply reshape4_shape in HR.
Qed.

(** X10: what [prepare] hands to the network.  It returns only when the signal
    has as many vertices as configured and every partition holds a window;
    the three scaled history arrays then keep the shapes of the windows, and
    the three target arrays are not scaled: they hold the first channel of
    the signal at the time steps the windows predict. *)
Theorem prepare_outputs (cfg : config) (X : ndarray3 float) (V F T : nat)
    (r : Pipeline.prepared S) :
  wf3 X → shape3 X = (V, F, T) → T ≤ Pipeline.max_steps →
  Pipeline.prepare cfg X = Ok r →
  let H := num_points_for_train cfg in
  let P := num_points_for_predict cfg in
  let s1 := 3 * T / 5 in
  let s2 := 4 * T / 5 in
  V = num_of_vertices cfg ∧ 1 ≤ F ∧
  H + P ≤ s1 ∧ H + P ≤ s2 - s1 ∧ H + P ≤ T - s2 ∧
  shape4 (Pipeline.training_data_norm r) = (s1 - (H + P) + 1, F, V, H) ∧
  shape4 (Pipeline.val_data_norm r) = (s2 - s1 - (H + P) + 1, F, V, H) ∧
  shape4 (Pipeline.testing_data_norm r) = (T - s2 - (H + P) + 1, F, V, H) ∧
  shape3 (Pipeline.training_target r) = (s1 - (H + P) + 1, V, P) ∧
  shape3 (Pipeline.val_target r) = (s2 - s1 - (H + P) + 1, V, P) ∧
  shape3 (Pipeline.testing_target r) = (T - s2 - (H + P) + 1, V, P) ∧
  ∀ v p, v < V → p < P →
    (∀ i, i < s1 - (H + P) + 1 →
       at3 (Pipeline.training_target r) i v p = at3 X v 0 (i + H + p)) ∧
    (∀ i, i < s2 - s1 - (H + P) + 1 →
       at3 (Pipeline.val_target r) i v p = at3 X v 0 (s1 + i + H + p)) ∧
    (∀ i, i < T - s2 - (H + P) + 1 →
       at3 (Pipeline.testing_target r) i v p = at3 X v 0 (s2 + i + H + p)).
Proof.
  intros Hwf Hs HT Hp H' P s1 s2.
  destruct (prepare_Ok _ _ _ Hp)
    as [train val test td vd sd vt st flat out
        Htr Hva Hte Hbt Hbv Hbs Hf Hfit Htn Hvn Hsn Hvt Hst Hn HH].
  destruct (split_slices X V F T Hwf Hs HT) as (_ & _ & Htr' & Hva' & Hte').
  fold s1 s2 in Htr', Hva', Hte'.
  assert (s1 ≤ s2) as H12 by (unfold s1, s2; apply Nat.Div0.div_le_mono; lia).
  assert (s2 ≤ T) as H2T by (unfold s2; apply Nat.Div0.div_le_upper_bound; lia).
  assert (Pipeline.slice_of X V F train 0 s1) as (Wtr & Str & Ctr).
  { assert (train = slice_time X None (Some (Z.of_nat s1))) as -> by congruence.
    apply (slice_upto_slice_of X V F T); [done|done|lia]. }
  assert (Pipeline.slice_of X V F val s1 (s2 - s1)) as (Wva & Sva & Cva).
  { assert (val = slice_time X (Some (Z.of_nat s1)) (Some (Z.of_nat s2))) as -> by congruence.
    by apply (slice_time_slice_of X V F T). }
  assert (Pipeline.slice_of X V F test s2 (T - s2)) as (Wte & Ste & Cte).
  { assert (test = slice_time X (Some (Z.of_nat s2)) None) as -> by congruence.
    by apply (slice_from_slice_of X V F T). }
  destruct (build_dataset_Ok_inv cfg train V F s1 _ _ Str Hbt) as [HF Hl1].
  destruct (build_dataset_Ok_inv cfg val V F (s2 - s1) _ _ Sva Hbv) as [_ Hl2].
  destruct (build_dataset_Ok_inv cfg test V F (T - s2) _ _ Ste Hbs) as [_ Hl3].
  destruct (windows_of_slice cfg X train V F T 0 s1 _ _ Wtr Str Ctr Hbt) as (Sh1 & St1 & W1).
  destruct (windows_of_slice cfg X val V F T s1 (s2 - s1) _ _ Wva Sva Cva Hbv)
    as (Sh2 & St2 & W2).
  destruct (windows_of_slice cfg X test V F T s2 (T - s2) _ _ Wte Ste Cte Hbs)
    as (Sh3 & St3 & W3).
  fold H' P in Sh1, St1, W1, Sh2, St2, W2, Sh3, St3, W3, Hl1, Hl2, Hl3.
  assert (V = num_of_vertices cfg) as HV by (by rewrite Hn, Sh1).
  split; [done|]. split; [done|]. do 3 (split; [done|]).
  apply reshape4_shape in Htn. apply scaled_shape in Hvn, Hsn.
  rewrite Sh1 in Htn, Hvn, Hsn. simpl in Htn, Hvn, Hsn.
  rewrite Sh2 in Hvn. rewrite Sh3 in Hsn. simpl in Hvn, Hsn.
  split; [by rewrite Htn, HV|]. split; [by rewrite Hvn, HV|]. split; [by rewrite Hsn, HV|].
  split; [done|]. split; [by rewrite Hvt|]. split; [by rewrite Hst|].
  intros v p Hv Hpp. split; [|split].
  - intros i Hi. destruct (W1 i Hi) as (_ & _ & Ht). by rewrite Ht.
  - intros i Hi. destruct (W2 i Hi) as (_ & _ & Ht). by rewrite Hvt, Ht.
  - intros i Hi. destruct (W3 i Hi) as (_ & _ & Ht). by rewrite Hst, Ht.
Qed.


End MoreScript.

Lemma wf3_signal20 (bump : float) : wf3 (signal20 bump).
Proof. split; [reflexivity|]. repeat constructor. Qed.

Lemma prepare_outputs_witness :
  ∃ r : Pipeline.prepared Pipeline.zscore,
    Pipeline.prepare cfg3 (signal20 0) = Ok r ∧
    3 = num_of_vertices cfg3 ∧ 1 ≤ 3 ∧
    2 + 1 ≤ 12 ∧ 2 + 1 ≤ 16 - 12 ∧ 2 + 1 ≤ 20 - 16 ∧
    shape4 (Pipeline.training_data_norm r) = (12 - (2 + 1) + 1, 3, 3, 2) ∧
    shape4 (Pipeline.val_data_norm r) = (16 - 12 - (2 + 1) + 1, 3, 3, 2) ∧
    shape4 (Pipeline.testing_data_norm r) = (20 - 16 - (2 + 1) + 1, 3, 3, 2) ∧
    shape3 (Pipeline.training_target r) = (12 - (2 + 1) + 1, 3, 1) ∧
    shape3 (Pipeline.val_target r) = (16 - 12 - (2 + 1) + 1, 3, 1) ∧
    shape3 (Pipeline.testing_target r) = (20 - 16 - (2 + 1) + 1, 3, 1) ∧
    ∀ v p, v < 3 → p < 1 →
      (∀ i, i < 12 - (2 + 1) + 1 →
         at3 (Pipeline.training_target r) i v p = at3 (signal20 0) v 0 (i + 2 + p)) ∧
      (∀ i, i < 16 - 12 - (2 + 1) + 1 →
         at3 (Pipeline.val_target r) i v p = at3 (signal20 0) v 0 (12 + i + 2 + p)) ∧
      (∀ i, i < 20 - 16 - (2 + 1) + 1 →
         at3 (Pipeline.testing_target r) i v p = at3 (signal20 0) v 0 (16 + i + 2 + p)).
Proof.
  destruct (Pipeline.prepare (S := Pipeline.zscore) cfg3 (signal20 0)) as [r|e] eqn:E;
    [|vm_compute in E; discriminate E].
  exists r. split; [reflexivity|].
  apply (prepare_outputs cfg3 (signal20 0) 3 3 20 r (wf3_signal20 0));
    [reflexivity|unfold Pipeline.max_steps; lia|exact E].
Defined.


(** * More on the training loop *)

Lemma string_app_inj (s a b : string) : s +:+ a = s +:+ b → a = b.
Proof. induction s as [|c s IH]; simpl; [done|]. intros [= E]. by apply IH. Qed.

Lemma checkpoint_name_inj : Inj (=) (=) Training.checkpoint_name.
Proof.
  intros a b E. unfold Training.checkpoint_name in E.
  apply string_app_inj in E. by apply (inj pretty).
Qed.

Lemma NoDup_checkpoint_epochs (n : nat) : NoDup (Training.checkpoint_epochs n).
Proof.
  unfold Training.checkpoint_epochs.
  apply NoDup_ListNoDup, List.NoDup_filter, NoDup_ListNoDup, NoDup_seq.
Qed.

Section MoreEngine.
Context {params batch : Type}.
Variable train_step : float → params → batch → params * float.
Variable eval_loss : params → batch → float.
Variable cfg : config.
Variable training_dataloader : nat → list batch.
Variables validation_dataloader testing_dataloader : list batch.


Hypothesis training_batches : ∀ epoch, training_dataloader epoch ≠ [].
Hypothesis validation_batches : validation_dataloader ≠ [].
Hypothesis testing_batches : testing_dataloader ≠ [].
Hypothesis interval_positive : (0 < decay_interval cfg)%Z.

(** One epoch: the network and the checkpoint it writes. *)
Lemma run_epoch_net (s s' : Training.state params) (epoch : nat) :
  (Training.run_epoch params batch train_step eval_loss cfg
     training_dataloader validation_dataloader testing_dataloader) s epoch = Ok s' →
  Training.net s' =
    (Training.train_batches params batch train_step (Training.lr s) (Training.net s)
       (training_dataloader epoch)).1 ∧
  Training.saved s' =
    Training.saved s ++
    (if ((Z.of_nat epoch + 1) mod 5 =? 0)%Z
     then [(Training.checkpoint_name epoch, Training.net s')] else []).
Proof.
  unfold Training.run_epoch.
  destruct (Training.train_batches _ _ _ _ _ _) as [p losses]. simpl.
  intros (m1 & _ & (m2 & _ & (m3 & _ & Hs)%bind_Ok)%bind_Ok)%bind_Ok.
  destruct (decay_interval cfg =? 0)%Z; [discriminate|].
  injection Hs as <-. simpl. split; [done|].
  destruct (_ =? 0)%Z; [done|by rewrite app_nil_r].
Qed.

Lemma epochs_net (p : params) (n : nat) (s : Training.state params) :
  for_each (Training.run_epoch params batch train_step eval_loss cfg
     training_dataloader validation_dataloader testing_dataloader) (seq 0 n) (Training.initial params cfg p) = Ok s →
  Training.net s = trained train_step cfg training_dataloader p n ∧
  Training.saved s =
    map (λ epoch, (Training.checkpoint_name epoch,
                   trained train_step cfg training_dataloader p (S epoch)))
        (Training.checkpoint_epochs n).
Proof.
  revert s. induction n as [|n IH]; intros s.
  - by intros [= <-].
  - rewrite seq_S, for_each_app.
    destruct (epochs_Ok train_step eval_loss cfg training_dataloader validation_dataloader
                testing_dataloader training_batches validation_batches testing_batches
                interval_positive p n) as (s0 & Hs0 & Hlr & _).
    rewrite Hs0, bind_Ok_l, for_each_cons.
    intros (s1 & H1 & [= <-])%bind_Ok.
    destruct (IH s0 Hs0) as [Hnet Hsaved].
    destruct (run_epoch_net s0 s1 n H1) as [Hnet1 Hsaved1]. simpl in Hnet1, Hsaved1.
    assert (Training.net s1 = trained train_step cfg training_dataloader p (S n)) as E.
    { unfold trained. rewrite seq_S, fold_left_app. simpl.
      fold (trained train_step cfg training_dataloader p n). by rewrite <- Hnet, <- Hlr. }
    split; [done|].
    rewrite Hsaved1, Hsaved, E. unfold Training.checkpoint_epochs.
    rewrite seq_S, List.filter_app, map_app. cbn [List.filter Nat.add].
    destruct ((Z.of_nat n + 1) mod 5 =? 0)%Z; simpl; [done|by rewrite !app_nil_r].
Qed.

End MoreEngine.

(** X12: what a checkpoint holds.  In a run that completes, the network ends as
    the training steps of all epochs leave it (the validation and testing
    passes and the checkpoints change nothing), the file written at the end
    of an epoch holds the parameters as the training steps up to and
    including that epoch leave them, and no two checkpoints share a name. *)
Theorem checkpoint_contents {params batch : Type}
    (train_step : float → params → batch → params * float)
    (eval_loss : params → batch → float) (cfg : config)
    (training_dataloader : nat → list batch)
    (validation_dataloader testing_dataloader : list batch) (p : params) :
  (∀ epoch, training_dataloader epoch ≠ []) →
  validation_dataloader ≠ [] → testing_dataloader ≠ [] →
  (0 < decay_interval cfg)%Z →
  ∃ s, Training.train_model params batch train_step eval_loss cfg p
         training_dataloader validation_dataloader testing_dataloader = Ok s ∧
       Training.net s = trained train_step cfg training_dataloader p (epochs cfg) ∧
       Training.saved s =
         map (λ epoch, (Training.checkpoint_name epoch,
                        trained train_step cfg training_dataloader p (S epoch)))
             (Training.checkpoint_epochs (epochs cfg)) ∧
       NoDup (map fst (Training.saved s)).
Proof.
  intros Ht Hv Hs Hd.
  destruct (epochs_Ok train_step eval_loss cfg training_dataloader
              validation_dataloader testing_dataloader Ht Hv Hs Hd p (epochs cfg))
    as (s & Hrun & _).
  destruct (epochs_net train_step eval_loss cfg training_dataloader
              validation_dataloader testing_dataloader Ht Hv Hs Hd p (epochs cfg) s Hrun)
    as [Hnet Hsaved].
  exists s. unfold Training.train_model, range. rewrite Nat2Z.id.
  split; [done|]. split; [done|]. split; [done|].
  rewrite Hsaved, <- list_fmap_compose.
  apply (NoDup_fmap_2 (Training.checkpoint_name)), NoDup_checkpoint_epochs.
Qed.

Lemma checkpoint_contents_witness :
  ∃ s, Training.train_model nat unit toy_step toy_loss cfg3 0
         toy_train toy_eval toy_eval = Ok s ∧
       Training.net s = trained toy_step cfg3 toy_train 0 (epochs cfg3) ∧
       Training.saved s =
         map (λ epoch, (Training.checkpoint_name epoch,
                        trained toy_step cfg3 toy_train 0 (S epoch)))
             (Training.checkpoint_epochs (epochs cfg3)) ∧
       NoDup (map fst (Training.saved s)).
Proof.
  apply (checkpoint_contents toy_step toy_loss cfg3 toy_train toy_eval toy_eval 0);
    [done|done|done|simpl; lia].
Defined.

(** X13: the loop returns one loss of each kind per epoch: when the loaders
    yield batches and the decay interval is positive, [train_model] returns
    and each of its three lists has [epochs] entries. *)
Theorem train_model_losses {params batch : Type}
    (train_step : float → params → batch → params * float)
    (eval_loss : params → batch → float) (cfg : config)
    (training_dataloader : nat → list batch)
    (validation_dataloader testing_dataloader : list batch) (p : params) :
  (∀ epoch, training_dataloader epoch ≠ []) →
  validation_dataloader ≠ [] → testing_dataloader ≠ [] →
  (0 < decay_interval cfg)%Z →
  ∃ s, Training.train_model params batch train_step eval_loss cfg p
         training_dataloader validation_dataloader testing_dataloader = Ok s ∧
       length (Training.train_loss_list s) = epochs cfg ∧
       length (Training.val_loss_list s) = epochs cfg ∧
       length (Training.test_loss_list s) = epochs cfg.
Proof.
  intros Ht Hv Hs Hd.
  destruct (epochs_Ok train_step eval_loss cfg training_dataloader
              validation_dataloader testing_dataloader Ht Hv Hs Hd p (epochs cfg))
    as (s & Hrun & _ & _ & _ & Hl).
  exists s. unfold Training.train_model, range. by rewrite Nat2Z.id.
Qed.

Lemma train_model_losses_witness :
  ∃ s, Training.train_model nat unit toy_step toy_loss cfg3 0
         toy_train toy_eval toy_eval = Ok s ∧
       length (Training.train_loss_list s) = epochs cfg3 ∧
       length (Training.val_loss_list s) = epochs cfg3 ∧
       length (Training.test_loss_list s) = epochs cfg3.
Proof.
  apply (train_model_losses toy_step toy_loss cfg3 toy_train toy_eval toy_eval 0);
    [done|done|done|simpl; lia].
Defined.

(** X14: how the loop fails.  With at least one epoch to run, a loader that
    yields no batch in the first epoch makes [sum(l) / len(l)] divide by zero,
    and so does a decay interval of 0 at the end of the first epoch; with no
    epoch to run nothing is evaluated and the initial state comes back. *)
Theorem train_model_failures {params batch : Type}
    (train_step : float → params → batch → params * float)
    (eval_loss : params → batch → float) (cfg : config)
    (training_dataloader : nat → list batch)
    (validation_dataloader testing_dataloader : list batch) (p : params) :
  (epochs cfg = 0 →
   Training.train_model params batch train_step eval_loss cfg p
     training_dataloader validation_dataloader testing_dataloader =
   Ok (Training.initial params cfg p)) ∧
  (1 ≤ epochs cfg →
   training_dataloader 0 = [] ∨ validation_dataloader = [] ∨ testing_dataloader = [] ∨
   decay_interval cfg = 0%Z →
   Training.train_model params batch train_step eval_loss cfg p
     training_dataloader validation_dataloader testing_dataloader =
   Raise ZeroDivisionError).
Proof.
  unfold Training.train_model, range. rewrite Nat2Z.id. split.
  - by intros ->.
  - intros He Hbad. destruct (epochs cfg) as [|n]; [lia|].
    change (seq 0 (S n)) with (0 :: seq 1 n). rewrite for_each_cons.
    assert (Training.run_epoch params batch train_step eval_loss cfg training_dataloader
              validation_dataloader testing_dataloader (Training.initial params cfg p) 0 =
            Raise ZeroDivisionError) as ->; [|done].
    unfold Training.run_epoch.
    destruct (Training.train_batches _ _ _ _ _ _) as [p' losses] eqn:Etb.
    destruct (training_dataloader 0) as [|b bs] eqn:Et.
    { injection Etb as <- <-. done. }
    assert (losses ≠ []) as Hl.
    { pose proof (train_batches_losses train_step
                    (Training.lr (Training.initial params cfg p))
                    (Training.net (Training.initial params cfg p)) (b :: bs) []) as Hlen.
      unfold Training.train_batches in Etb. rewrite Etb in Hlen. simpl in Hlen.
      destruct losses; [simpl in Hlen; lia|done]. }
    destruct (mean_Ok losses Hl) as [m1 ->]. rewrite bind_Ok_l.
    destruct validation_dataloader as [|v vs]; [done|].
    destruct (mean_Ok (map (eval_loss p') (v :: vs))) as [m2 ->]; [done|].
    rewrite bind_Ok_l.
    destruct testing_dataloader as [|t ts]; [done|].
    destruct (mean_Ok (map (eval_loss p') (t :: ts))) as [m3 ->]; [done|].
    rewrite bind_Ok_l.
    destruct Hbad as [?|[?|[?|E]]]; try done. by rewrite E.
Qed.

Lemma train_model_failures_witness :
  Training.train_model nat unit toy_step toy_loss cfg3 0 toy_train [] toy_eval =
    Raise ZeroDivisionError ∧
  Training.train_model nat unit toy_step toy_loss cfg_no_decay 0 toy_train toy_eval toy_eval =
    Raise ZeroDivisionError.
Proof.
  split.
  - apply (proj2 (train_model_failures toy_step toy_loss cfg3 toy_train [] toy_eval 0));
      [simpl; lia|]. right. by left.
  - apply (proj2 (train_model_failures toy_step toy_loss cfg_no_decay toy_train
                    toy_eval toy_eval 0)); [simpl; lia|]. do 3 right. reflexivity.
Defined.
